(** * multi_tool_agent/agent.py: the weather and time tools

    A shallow embedding of the three tool functions of
    [multi_tool_agent/agent.py] ([get_weather], [get_forcast],
    [get_current_time]) and of the fragments of the Python runtime they
    touch: [str] values and [str.lower], the values produced by the JSON
    decoder, subscripting, the format specification [.1f], exceptions
    with [try]/[except], and [datetime.strftime].

    What lives outside the process is a parameter of the model: the
    environment read by [os.getenv], the answer of the network to a GET
    request, the clock read by [datetime.datetime.now], and the Unicode
    lower-casing table. *)

From Stdlib Require Import ZArith NArith List String Ascii Bool Lia.
From Stdlib Require Import SpecFloat Zpower.
Import ListNotations.

Local Open Scope Z_scope.

(** ** Python strings *)

(** A [str] is a sequence of Unicode code points. *)
Definition pystr := list N.

(** The code points of an ASCII literal of the source. *)
Definition lit (s : string) : pystr := map N_of_ascii (list_ascii_of_string s).

Fixpoint pystr_eqb (a b : pystr) : bool :=
  match a, b with
  | [], [] => true
  | x :: a', y :: b' => N.eqb x y && pystr_eqb a' b'
  | _, _ => false
  end.

(** [needle in hay], as a proposition. *)
Definition contains (needle hay : pystr) : Prop :=
  exists before after, hay = before ++ needle ++ after.

Definition is_ascii (c : N) : bool := N.ltb c 128.
Definition is_upper (c : N) : bool := N.leb 65 c && N.leb c 90.
Definition is_digit (c : N) : bool := N.leb 48 c && N.leb c 57.

(** Lower-casing of one ASCII code point: ['A'..'Z'] move down by 32. *)
Definition ascii_lower (c : N) : N := if is_upper c then (c + 32)%N else c.

Section Lower.
(** [unicode_lower s i] is what [str.lower] produces for the code
    point at index [i] of [s] when that code point is not ASCII: the
    full case mapping of the Unicode database, which may yield several
    code points, and the final-sigma rule, which looks at the
    neighbours. *)
Variable unicode_lower : pystr -> nat -> pystr.

Definition lower_at (s : pystr) (i : nat) (c : N) : pystr :=
  if is_ascii c then [ascii_lower c] else unicode_lower s i.

Fixpoint lower_from (s : pystr) (i : nat) (rest : pystr) : pystr :=
  match rest with
  | [] => []
  | c :: rest' => lower_at s i c ++ lower_from s (S i) rest'
  end.

(** [s.lower()] *)
Definition py_lower (s : pystr) : pystr := lower_from s 0 s.
End Lower.

(** Two ASCII code points that are the same letter up to case. *)
Definition same_letter (x y : N) : Prop :=
  x = y \/ (is_upper x = true /\ y = (x + 32)%N)
        \/ (is_upper y = true /\ x = (y + 32)%N).

(** ** Decimal numerals *)

Definition digit_chr (d : N) : N := (48 + d)%N.

(** The decimal digits of [n], least significant first; [fuel] bounds
    their number. *)
Fixpoint digits_le (fuel : nat) (n : N) : pystr :=
  match fuel with
  | O => []
  | S fuel' =>
      digit_chr (n mod 10) ::
      (if (n / 10 =? 0)%N then [] else digits_le fuel' (n / 10)%N)
  end.

(** [str(n)] for a natural number: its decimal digits. A number has no
    more decimal digits than binary ones. *)
Definition str_N (n : N) : pystr :=
  rev (digits_le (S (N.to_nat (N.log2 n))) n).

(** [n] in decimal, padded with zeros on the left up to [width]
    characters (the [%02d] of the C library). *)
Definition zpad (width : nat) (n : N) : pystr :=
  let d := str_N n in
  repeat (digit_chr 0) (width - List.length d) ++ d.

(** The number a string of decimal digits denotes. *)
Definition decimal_value (s : pystr) : N :=
  fold_left (fun acc c => (10 * acc + (c - 48))%N) s 0%N.

(** ** Floating point numbers and the format specification [.1f] *)

(** A Python [float] is an IEEE 754 binary64 value, here the value
    itself: sign, mantissa and binary exponent, or a zero, an infinity,
    or NaN. *)
Definition pyfloat := spec_float.

Definition prec : Z := 53.
Definition emax : Z := 1024.

Definition is_finite (x : pyfloat) : bool :=
  match x with
  | S754_zero _ | S754_finite _ _ _ => true
  | S754_infinity _ | S754_nan => false
  end.

(** [float(n)] for an [int]: the nearest binary64 value, ties to even;
    [None] stands for the [OverflowError] of an [int] too large. *)
Definition float_of_int (n : Z) : option pyfloat :=
  match binary_normalize prec emax n 0 false with
  | S754_infinity _ => None
  | x => Some x
  end.

(** The binary64 value of the decimal literal [num / den], for [num] and
    [den] exactly representable: the division is correctly rounded. *)
Definition float_of_ratio (num den : Z) : pyfloat :=
  SFdiv prec emax (binary_normalize prec emax num 0 false)
                  (binary_normalize prec emax den 0 false).

(** The integer nearest to [num / den] ([den > 0]), ties to even. *)
Definition round_half_even (num den : Z) : Z :=
  let q := num / den in
  let r := num mod den in
  match 2 * r ?= den with
  | Lt => q
  | Eq => if Z.even q then q else q + 1
  | Gt => q + 1
  end.

(** [|x| * 10] rounded to an integer, for [|x| = m * 2^e]: the decimal
    conversion of CPython rounds the exact binary value. *)
Definition tenths (m : positive) (e : Z) : Z :=
  match e with
  | Zneg p => round_half_even (10 * Zpos m) (2 ^ Zpos p)
  | _ => 10 * Zpos m * 2 ^ e
  end.

(** Sign, integer part, point, one digit. *)
Definition fixed1 (sign : bool) (t : Z) : pystr :=
  (if sign then lit "-" else []) ++
  str_N (Z.to_N (t / 10)) ++ lit "." ++ [digit_chr (Z.to_N (t mod 10))].

(** [format(x, ".1f")] for a [float]. *)
Definition float_format_1f (x : pyfloat) : pystr :=
  match x with
  | S754_zero s => fixed1 s 0
  | S754_finite s m e => fixed1 s (tenths m e)
  | S754_infinity s => if s then lit "-inf" else lit "inf"
  | S754_nan => lit "nan"
  end.

(** ** Python values, exceptions and effects *)

#[local] Set Warnings "-register-all".

(** The values the JSON decoder produces, which are also the values the
    tools return: [None], [bool], [int], [float], [str], [list] and
    [dict] with [str] keys (in insertion order). *)
Inductive pyval :=
| PNone
| PBool (b : bool)
| PInt (n : Z)
| PFloat (x : pyfloat)
| PStr (s : pystr)
| PList (l : list pyval)
| PDict (d : list (pystr * pyval)).

(** The exceptions that can occur. [RequestException] stands for the
    whole hierarchy rooted at [requests.exceptions.RequestException];
    its argument is [str(e)]. *)
Inductive exn :=
| RequestException (what : pystr)
| KeyError (key : pystr)
| TypeError
| ValueError
| AttributeError
| OverflowError.

Inductive outcome (A : Type) :=
| Returned (a : A)
| Raised (e : exn).
Arguments Returned {A} a.
Arguments Raised {A} e.

(** A GET request: the URL and the [params] dictionary. *)
Record http_request := {
  url : pystr;
  params : list (pystr * pyval)
}.

(** A response object, by what its two methods do: [raise_for_status]
    raises an [HTTPError] described by [http_error] if the status of the
    response is an error status, and [json] raises a [JSONDecodeError]
    (left) or returns the decoded body (right). Both exceptions are
    [RequestException]s ([requests.exceptions.JSONDecodeError] is one
    since requests 2.27). *)
Record response := {
  http_error : option pystr;
  decoded : pystr + pyval
}.

(** What [requests.get] does: it raises (connection error, timeout, DNS
    failure, ...) or returns a response. *)
Inductive reply :=
| Failed (what : pystr)
| Responded (r : response).

(** A computation threads the log of the GET requests issued so far,
    oldest first, and returns a value or raises. *)
Definition py (A : Type) : Type := list http_request -> outcome A * list http_request.

Definition ret {A} (a : A) : py A := fun log => (Returned a, log).
Definition raise {A} (e : exn) : py A := fun log => (Raised e, log).
Definition bind {A B} (m : py A) (k : A -> py B) : py B :=
  fun log =>
    match m log with
    | (Returned a, log') => k a log'
    | (Raised e, log') => (Raised e, log')
    end.

Notation "x <- m ;; k" := (bind m (fun x => k))
  (at level 61, m at next level, right associativity).

(** [try: body except requests.exceptions.RequestException as e: handler]:
    any other exception goes through. *)
Definition try_except_RequestException {A} (body : py A) (handler : pystr -> py A) : py A :=
  fun log =>
    match body log with
    | (Raised (RequestException what), log') => handler what log'
    | r => r
    end.

(** [d[key]] on a [dict]. *)
Fixpoint dict_get (d : list (pystr * pyval)) (key : pystr) : option pyval :=
  match d with
  | [] => None
  | (k, v) :: d' => if pystr_eqb k key then Some v else dict_get d' key
  end.

(** [v[key]] with a [str] key: [KeyError] on a [dict] without the key,
    [TypeError] on every other type of value. *)
Definition getitem (v : pyval) (key : pystr) : py pyval :=
  match v with
  | PDict d =>
      match dict_get d key with
      | Some x => ret x
      | None => raise (KeyError key)
      end
  | _ => raise TypeError
  end.

(** [v.lower()]: only a [str] has the method. *)
Definition lower_method (unicode_lower : pystr -> nat -> pystr) (v : pyval) : py pystr :=
  match v with
  | PStr s => ret (py_lower unicode_lower s)
  | _ => raise AttributeError
  end.

(** [f"{v:.1f}"]: a [float] is formatted, an [int] (and a [bool], which
    is one) is converted to [float] first, a [str] rejects the format
    code, the other types reject any format specification. *)
Definition format_1f (v : pyval) : py pystr :=
  match v with
  | PFloat x => ret (float_format_1f x)
  | PInt n =>
      match float_of_int n with
      | Some x => ret (float_format_1f x)
      | None => raise OverflowError
      end
  | PBool b =>
      match float_of_int (if b then 1 else 0) with
      | Some x => ret (float_format_1f x)
      | None => raise OverflowError
      end
  | PStr _ => raise ValueError
  | PNone | PList _ | PDict _ => raise TypeError
  end.

(** [not v] for the result of [os.getenv]: [None] and the empty string
    are false. *)
Definition py_not (v : option pystr) : bool :=
  match v with
  | None => true
  | Some [] => true
  | Some (_ :: _) => false
  end.

Definition of_getenv (v : option pystr) : pyval :=
  match v with
  | None => PNone
  | Some s => PStr s
  end.

(** ** Dates *)

(** An aware [datetime]: the fields of the wall clock, the abbreviation
    of the zone and its offset from UTC in seconds. *)
Record datetime := {
  year : N; month : N; day : N;
  hour : N; minute : N; second : N;
  tzname : pystr;
  utcoffset : Z
}.

Definition chr (a : ascii) : N := N_of_ascii a.

(** [%z]: sign, hours and minutes of the offset, and the seconds when
    there are some. *)
Definition format_offset (off : Z) : pystr :=
  let a := Z.to_N (Z.abs off) in
  (if off <? 0 then lit "-" else lit "+") ++
  zpad 2 (a / 3600)%N ++ zpad 2 ((a mod 3600) / 60)%N ++
  (if (a mod 60 =? 0)%N then [] else zpad 2 (a mod 60)%N).

(** One directive of [strftime]; the ones the source does not use are
    left as they are. ([%Y] is the year in four digits from the year
    1000 on; before that some C libraries do not pad it.) *)
Definition directive (d : datetime) (k : N) : pystr :=
  if (k =? chr "Y")%N then zpad 4 (year d)
  else if (k =? chr "m")%N then zpad 2 (month d)
  else if (k =? chr "d")%N then zpad 2 (day d)
  else if (k =? chr "H")%N then zpad 2 (hour d)
  else if (k =? chr "M")%N then zpad 2 (minute d)
  else if (k =? chr "S")%N then zpad 2 (second d)
  else if (k =? chr "Z")%N then tzname d
  else if (k =? chr "z")%N then format_offset (utcoffset d)
  else [chr "%"; k].

(** [d.strftime(fmt)] *)
Fixpoint strftime (d : datetime) (fmt : pystr) : pystr :=
  match fmt with
  | [] => []
  | c :: rest =>
      if (c =? chr "%")%N then
        match rest with
        | [] => [c]
        | k :: rest' => directive d k ++ strftime d rest'
        end
      else c :: strftime d rest
  end.

(** [ZoneInfo(key)]: a zone is named by its key in the zone database. *)
Definition ZoneInfo (key : pystr) : pystr := key.

(** ** The tools *)

Section Toolset.
(** The Unicode lower-casing table (see [py_lower]). *)
Variable unicode_lower : pystr -> nat -> pystr.
(** The process environment: [environ name] is [os.getenv(name)]. *)
Variable environ : pystr -> option pystr.
(** The network: what happens to a GET request. *)
Variable network : http_request -> reply.
(** The clock and the zone database: [clock key] is the present time
    on the wall clock of the zone [key]. The database is taken to have
    the one key the source asks for, so that [ZoneInfo] does not
    fail. *)
Variable clock : pystr -> datetime.

Definition os_getenv (name : pystr) : option pystr := environ name.

(** [requests.get(base_url, params=params)]: one GET request is
    issued, whatever comes of it. *)
Definition requests_get (base_url : pystr) (params : list (pystr * pyval)) : py response :=
  fun log =>
    let request := {| url := base_url; params := params |} in
    match network request with
    | Failed what => (Raised (RequestException what), log ++ [request])
    | Responded r => (Returned r, log ++ [request])
    end.

Definition raise_for_status (r : response) : py unit :=
  match http_error r with
  | Some what => raise (RequestException what)
  | None => ret tt
  end.

Definition json (r : response) : py pyval :=
  match decoded r with
  | inl what => raise (RequestException what)
  | inr data => ret data
  end.

Definition datetime_now (tz : pystr) : datetime := clock tz.

Definition get_weather (city : pystr) : py pyval :=
  let api_key := os_getenv (lit "WEATHERAPI_KEY") in
  if py_not api_key then
    ret (PDict [(lit "status", PStr (lit "error"));
                (lit "error_message", PStr (lit "WeatherAPI key not configured"))])
  else
    let base_url := lit "http://api.weatherapi.com/v1/current.json" in
    let params := [(lit "key", of_getenv api_key);
                   (lit "q", PStr city);
                   (lit "aqi", PStr (lit "no"))] in
    try_except_RequestException
      (response <- requests_get base_url params ;;
       _ <- raise_for_status response ;;
       data <- json response ;;
       current <- getitem data (lit "current") ;;
       temp_c <- getitem current (lit "temp_c") ;;
       current <- getitem data (lit "current") ;;
       temp_f <- getitem current (lit "temp_f") ;;
       current <- getitem data (lit "current") ;;
       condition <- getitem current (lit "condition") ;;
       condition <- getitem condition (lit "text") ;;
       condition_lower <- lower_method unicode_lower condition ;;
       temperature_c <- format_1f temp_c ;;
       temperature_f <- format_1f temp_f ;;
       ret (PDict [(lit "status", PStr (lit "success"));
                   (lit "condition", PStr condition_lower);
                   (lit "temperature_c", PStr temperature_c);
                   (lit "temperature_f", PStr temperature_f);
                   (lit "city_name", PStr city)]))
      (fun e =>
         ret (PDict [(lit "status", PStr (lit "error"));
                     (lit "error_message",
                      PStr (lit "Weather information for '" ++ city ++
                            lit "' is not available: " ++ e))])).

Definition get_forcast (city : pystr) (days : Z) : py pyval :=
  let api_key := os_getenv (lit "WEATHERAPI_KEY") in
  if py_not api_key then
    ret (PDict [(lit "status", PStr (lit "error"));
                (lit "error_message", PStr (lit "WeatherAPI key not configured"))])
  else
    let base_url := lit "http://api.weatherapi.com/v1/forecast.json" in
    let params := [(lit "key", of_getenv api_key);
                   (lit "q", PStr city);
                   (lit "days", PInt days);
                   (lit "aqi", PStr (lit "no"))] in
    try_except_RequestException
      (response <- requests_get base_url params ;;
       _ <- raise_for_status response ;;
       data <- json response ;;
       ret data)
      (fun e =>
         ret (PDict [(lit "status", PStr (lit "error"));
                     (lit "error_message",
                      PStr (lit "Weather information for '" ++ city ++
                            lit "' is not available: " ++ e))])).

Definition get_current_time (city : pystr) : py pyval :=
  if pystr_eqb (py_lower unicode_lower city) (lit "new york") then
    let tz_identifier := lit "America/New_York" in
    let tz := ZoneInfo tz_identifier in
    let now := datetime_now tz in
    let report := lit "The current time in " ++ city ++ lit " is " ++
                  strftime now (lit "%Y-%m-%d %H:%M:%S %Z%z") in
    ret (PDict [(lit "status", PStr (lit "success"));
                (lit "report", PStr report)])
  else
    ret (PDict [(lit "status", PStr (lit "error"));
                (lit "error_message",
                 PStr (lit "Sorry, I don't have timezone information for " ++
                       city ++ lit "."))]).
End Toolset.

(** The default of the [days] argument of [get_forcast]. *)
Definition days_default : Z := 7.

(** ** Reading an envelope *)

(** The field [key] of a returned value, when it is a [dict] that has
    it. *)
Definition field (key : string) (v : pyval) : option pyval :=
  match v with
  | PDict d => dict_get d (lit key)
  | _ => None
  end.


Definition not_configured : pyval :=
  PDict [(lit "status", PStr (lit "error"));
         (lit "error_message", PStr (lit "WeatherAPI key not configured"))].

(** The request layer, seen as a whole: the description of the failure
    of [requests.get], [raise_for_status] or [json], whichever comes
    first, or the decoded body. *)
Definition upstream (r : reply) : pystr + pyval :=
  match r with
  | Failed what => inl what
  | Responded resp =>
      match http_error resp with
      | Some what => inl what
      | None => decoded resp
      end
  end.

(** The requests the two weather tools send. *)
Definition current_request (api_key city : pystr) : http_request :=
  {| url := lit "http://api.weatherapi.com/v1/current.json";
     params := [(lit "key", PStr api_key); (lit "q", PStr city);
                (lit "aqi", PStr (lit "no"))] |}.

Definition forecast_request (api_key city : pystr) (days : Z) : http_request :=
  {| url := lit "http://api.weatherapi.com/v1/forecast.json";
     params := [(lit "key", PStr api_key); (lit "q", PStr city);
                (lit "days", PInt days); (lit "aqi", PStr (lit "no"))] |}.


(** A numeral of [width] digits denoting [n]. *)
Definition numeral (width : nat) (n : N) (s : pystr) : Prop :=
  List.length s = width /\
  Forall (fun c => is_digit c = true) s /\
  decimal_value s = n.

(** The fields of a [datetime] are in the ranges the class allows, the
    year has four digits, and the offset is a whole number of minutes,
    less than a day. *)
Definition wall_clock (d : datetime) : Prop :=
  (1000 <= year d <= 9999)%N /\ (1 <= month d <= 12)%N /\ (1 <= day d <= 31)%N /\
  (hour d <= 23)%N /\ (minute d <= 59)%N /\ (second d <= 59)%N /\
  utcoffset d mod 60 = 0 /\ Z.abs (utcoffset d) < 86400.

(** The report of [get_current_time]: a sentence naming the city as it
    was given, then the reading [now] of the clock as
    [YYYY-MM-DD HH:MM:SS], a space, the abbreviation of the zone and the
    offset from UTC as a sign, two digits of hours and two of minutes. *)
Definition timestamp_report (city : pystr) (now : datetime) (report : pystr) : Prop :=
  let offset := Z.to_N (Z.abs (utcoffset now)) in
  exists YYYY MM DD hh mm ss oh om,
    numeral 4 (year now) YYYY /\ numeral 2 (month now) MM /\
    numeral 2 (day now) DD /\ numeral 2 (hour now) hh /\
    numeral 2 (minute now) mm /\ numeral 2 (second now) ss /\
    numeral 2 (offset / 3600)%N oh /\ numeral 2 ((offset mod 3600) / 60)%N om /\
    report =
      lit "The current time in " ++ city ++ lit " is " ++
      YYYY ++ lit "-" ++ MM ++ lit "-" ++ DD ++ lit " " ++
      hh ++ lit ":" ++ mm ++ lit ":" ++ ss ++ lit " " ++
      tzname now ++ (if utcoffset now <? 0 then lit "-" else lit "+") ++ oh ++ om.

(** The request fails: [requests.get] raises, or the response has an
    error status and [raise_for_status] raises, or the body cannot be
    decoded and [json] raises; [what] describes the failure. *)
Definition request_fails (r : reply) (what : pystr) : Prop :=
  r = Failed what \/
  exists resp,
    r = Responded resp /\
    (http_error resp = Some what \/
     (http_error resp = None /\ decoded resp = inl what)).

(** The exceptions the [except] clause of the tools lets through. *)
Definition uncaught (e : exn) : Prop :=
  match e with
  | RequestException _ => False
  | _ => True
  end.

(** A computation that issues no request and either returns a value
    satisfying [P] or raises an exception the tools do not catch. *)
Definition local_with {A} (P : A -> Prop) (m : py A) : Prop :=
  forall log,
    (exists a, m log = (Returned a, log) /\ P a) \/
    (exists e, m log = (Raised e, log) /\ uncaught e).

(** The envelopes of [get_weather] and [get_forcast]. *)
Definition unavailable (city what : pystr) : pyval :=
  PDict [(lit "status", PStr (lit "error"));
         (lit "error_message",
          PStr (lit "Weather information for '" ++ city ++
                lit "' is not available: " ++ what))].

Definition weather_success (city condition temperature_c temperature_f : pystr) : pyval :=
  PDict [(lit "status", PStr (lit "success"));
         (lit "condition", PStr condition);
         (lit "temperature_c", PStr temperature_c);
         (lit "temperature_f", PStr temperature_f);
         (lit "city_name", PStr city)].

(** The error envelope of [get_current_time]. *)
Definition unsupported (city : pystr) : pyval :=
  PDict [(lit "status", PStr (lit "error"));
         (lit "error_message",
          PStr (lit "Sorry, I don't have timezone information for " ++
                city ++ lit "."))].


(** The [float]s written [21.2], [70.2] and [21.249]. *)
Definition float_21_2 : pyfloat := float_of_ratio 212 10.
Definition float_70_2 : pyfloat := float_of_ratio 702 10.
Definition float_21_249 : pyfloat := float_of_ratio 21249 1000.

(** ** Sample worlds *)

(** A lower-casing table that leaves every non-ASCII code point as it
    is. *)
Definition no_unicode_cases (s : pystr) (i : nat) : pystr :=
  match nth_error s i with
  | Some c => [c]
  | None => []
  end.

(** A table in which the Kelvin sign U+212A becomes the letter k, as in
    the Unicode database. *)
Definition kelvin_cases (s : pystr) (i : nat) : pystr :=
  match nth_error s i with
  | Some c => if (c =? 8490)%N then [chr "k"] else [c]
  | None => []
  end.

Definition environ_without_key (name : pystr) : option pystr := None.

Definition environ_with_empty_key (name : pystr) : option pystr :=
  if pystr_eqb name (lit "WEATHERAPI_KEY") then Some [] else None.

Definition environ_with_key (name : pystr) : option pystr :=
  if pystr_eqb name (lit "WEATHERAPI_KEY") then Some (lit "secret") else None.

(** The connection fails. *)
Definition network_down (request : http_request) : reply :=
  Failed (lit "Connection timed out").


(** The server answers with a success status and the body [data]. *)
Definition network_answers (data : pyval) (request : http_request) : reply :=
  Responded {| http_error := None; decoded := inr data |}.

Definition body_current (temp_c temp_f : pyval) (text : string) : pyval :=
  PDict [(lit "location", PDict [(lit "name", PStr (lit "Paris"))]);
         (lit "current",
          PDict [(lit "temp_c", temp_c);
                 (lit "temp_f", temp_f);
                 (lit "condition", PDict [(lit "text", PStr (lit text))])])].

Definition body_sunny : pyval :=
  body_current (PFloat float_21_2) (PFloat float_70_2) "Sunny".


Definition body_forecast : pyval :=
  PDict [(lit "location", PDict [(lit "name", PStr (lit "Paris"))]);
         (lit "forecast", PDict [(lit "forecastday", PList [])])].

Definition clock_sample (tz : pystr) : datetime :=
  {| year := 2026; month := 11; day := 4;
     hour := 9; minute := 5; second := 7;
     tzname := lit "EST"; utcoffset := -18000 |}.

(** ** More readings of the tools *)

(** The last steps of the [try] block of [get_weather], from
    [condition.lower()] on, for the three values read from the body. *)
Definition weather_envelope (unicode_lower : pystr -> nat -> pystr) (city : pystr)
    (text temp_c temp_f : pyval) : py pyval :=
  condition_lower <- lower_method unicode_lower text ;;
  temperature_c <- format_1f temp_c ;;
  temperature_f <- format_1f temp_f ;;
  ret (PDict [(lit "status", PStr (lit "success"));
              (lit "condition", PStr condition_lower);
              (lit "temperature_c", PStr temperature_c);
              (lit "temperature_f", PStr temperature_f);
              (lit "city_name", PStr city)]).

(** A JSON object, and a JSON string. *)
Definition is_object (v : pyval) : Prop := exists d, v = PDict d.
Definition is_str (v : pyval) : Prop := exists s, v = PStr s.

(** A [Dict[str, str]]: a [dict] all of whose values are strings. *)
Definition str_dict (v : pyval) : Prop :=
  exists d, v = PDict d /\ Forall (fun kv => is_str (snd kv)) d.

(** The string [s] is a sign, some digits, the point and one digit, and
    the digits read as [t] tenths. *)
Definition writes_tenths (s : pystr) (negative : bool) (t : Z) : Prop :=
  exists whole d,
    s = (if negative then lit "-" else []) ++ whole ++ [chr "."; d] /\
    Forall (fun c => is_digit c = true) whole /\
    is_digit d = true /\
    Z.of_N (10 * decimal_value whole + (d - 48)) = t.

(** A body with more in it than [body_sunny], and the same three
    fields. *)
Definition body_sunny_verbose : pyval :=
  PDict [(lit "current",
          PDict [(lit "last_updated", PStr (lit "2026-11-04 09:00"));
                 (lit "temp_c", PFloat float_21_2);
                 (lit "temp_f", PFloat float_70_2);
                 (lit "condition",
                  PDict [(lit "text", PStr (lit "Sunny"));
                         (lit "code", PInt 1000)]);
                 (lit "humidity", PInt 40)])].

(** A body with the three fields [get_weather] reads, of any type. *)
Definition body_fields (temp_c temp_f text : pyval) : pyval :=
  PDict [(lit "current",
          PDict [(lit "temp_c", temp_c);
                 (lit "temp_f", temp_f);
                 (lit "condition", PDict [(lit "text", text)])])].

(** A body without [current.temp_f]. *)
Definition body_no_fahrenheit : pyval :=
  PDict [(lit "current",
          PDict [(lit "temp_c", PFloat float_21_2);
                 (lit "condition", PDict [(lit "text", PStr (lit "Sunny"))])])].

(** ** Facts about strings *)

Arguments lit : simpl never.

Lemma pystr_eqb_eq (a b : pystr) : pystr_eqb a b = true <-> a = b.
Proof.
  revert b; induction a as [|x a IH]; intros [|y b]; simpl;
    try (split; [discriminate | intros E; discriminate E]).
  - split; reflexivity.
  - rewrite andb_true_iff, N.eqb_eq, IH. split.
    + intros [-> ->]; reflexivity.
    + intros E; injection E as -> ->; split; reflexivity.
Qed.

Lemma pystr_eqb_refl (a : pystr) : pystr_eqb a a = true.
Proof. apply pystr_eqb_eq; reflexivity. Qed.

Lemma pystr_eqb_neq (a b : pystr) : pystr_eqb a b = false <-> a <> b.
Proof.
  split.
  - intros E H. apply pystr_eqb_eq in H. congruence.
  - intros H. destruct (pystr_eqb a b) eqn:E; [|reflexivity].
    apply pystr_eqb_eq in E. contradiction.
Qed.

Lemma contains_infix (before needle after : pystr) :
  contains needle (before ++ needle ++ after).
Proof. exists before, after; reflexivity. Qed.

Lemma lower_from_ascii (ul : pystr -> nat -> pystr) (s : pystr) (i : nat) (rest : pystr) :
  Forall (fun c => is_ascii c = true) rest ->
  lower_from ul s i rest = map ascii_lower rest.
Proof.
  intros H; revert i; induction H as [|c rest Hc _ IH]; intros i; simpl.
  - reflexivity.
  - unfold lower_at. rewrite Hc, IH. reflexivity.
Qed.

(** On an ASCII string [lower] works code point by code point. *)
Lemma py_lower_ascii (ul : pystr -> nat -> pystr) (s : pystr) :
  Forall (fun c => is_ascii c = true) s ->
  py_lower ul s = map ascii_lower s.
Proof. apply lower_from_ascii. Qed.

Lemma ascii_lower_same_letter (x y : N) :
  is_upper y = false -> (ascii_lower x = y <-> same_letter x y).
Proof.
  unfold ascii_lower, same_letter; intros Hy; split.
  - destruct (is_upper x) eqn:Hx; intros <-; auto.
  - intros [-> | [[Hx ->] | [Hy' _]]].
    + rewrite Hy; reflexivity.
    + rewrite Hx; reflexivity.
    + congruence.
Qed.

(** Lower-casing an ASCII string gives a string without capitals
    exactly when the two agree letter for letter up to case. *)
Lemma map_ascii_lower_caseless (s t : pystr) :
  Forall (fun c => is_upper c = false) t ->
  (map ascii_lower s = t <-> Forall2 same_letter s t).
Proof.
  intros Ht; revert s; induction Ht as [|y t Hy _ IH]; intros [|x s]; simpl.
  - split; [constructor | reflexivity].
  - split; [discriminate | intros H; inversion H].
  - split; [discriminate | intros H; inversion H].
  - split.
    + intros E; injection E as E1 E2. constructor.
      * apply ascii_lower_same_letter; assumption.
      * apply IH; assumption.
    + intros H; inversion H; subst. f_equal.
      * apply ascii_lower_same_letter; assumption.
      * apply IH; assumption.
Qed.

(** ** Facts about decimal numerals *)

Lemma is_digit_chr (d : N) : (d < 10)%N -> is_digit (digit_chr d) = true.
Proof.
  intros H; unfold is_digit, digit_chr.
  apply andb_true_iff; split; apply N.leb_le; lia.
Qed.

Lemma digits_le_digits (fuel : nat) (n : N) :
  Forall (fun c => is_digit c = true) (digits_le fuel n).
Proof.
  revert n; induction fuel as [|fuel IH]; intros n; simpl.
  - constructor.
  - constructor.
    + apply is_digit_chr. apply N.mod_lt; discriminate.
    + destruct (n / 10 =? 0)%N; [constructor | apply IH].
Qed.

Lemma digits_le_length (fuel w : nat) (n : N) :
  (n < 10 ^ N.of_nat (S w))%N -> (List.length (digits_le fuel n) <= S w)%nat.
Proof.
  revert n w; induction fuel as [|fuel IH]; intros n w H; simpl.
  - lia.
  - destruct (n / 10 =? 0)%N eqn:E; simpl; [lia|].
    apply N.eqb_neq in E.
    destruct w as [|w].
    + exfalso; apply E. apply N.div_small. exact H.
    + apply le_n_S. apply IH.
      apply N.Div0.div_lt_upper_bound.
      replace (N.of_nat (S (S w))) with (N.succ (N.of_nat (S w))) in H by lia.
      rewrite N.pow_succ_r' in H. exact H.
Qed.

Lemma digits_le_value (fuel : nat) (n : N) :
  (n < 10 ^ N.of_nat fuel)%N ->
  fold_right (fun c acc => (10 * acc + (c - 48))%N) 0%N (digits_le fuel n) = n.
Proof.
  revert n; induction fuel as [|fuel IH]; intros n H.
  - simpl in *. lia.
  - cbn [digits_le fold_right].
    assert (Hq : (n / 10 < 10 ^ N.of_nat fuel)%N).
    { apply N.Div0.div_lt_upper_bound.
      replace (N.of_nat (S fuel)) with (N.succ (N.of_nat fuel)) in H by lia.
      rewrite N.pow_succ_r' in H. exact H. }
    assert (Hd : (digit_chr (n mod 10) - 48 = n mod 10)%N).
    { unfold digit_chr. rewrite N.add_comm. apply N.add_sub. }
    rewrite Hd.
    destruct (n / 10 =? 0)%N eqn:E.
    + apply N.eqb_eq in E. cbn [fold_right].
      rewrite (N.div_mod n 10) at 2 by discriminate. lia.
    + rewrite (IH _ Hq).
      rewrite (N.div_mod n 10) at 3 by discriminate. lia.
Qed.

Lemma enough_fuel (n : N) : (n < 10 ^ N.of_nat (S (N.to_nat (N.log2 n))))%N.
Proof.
  replace (N.of_nat (S (N.to_nat (N.log2 n)))) with (N.succ (N.log2 n)) by lia.
  destruct n as [|p].
  - reflexivity.
  - apply N.lt_le_trans with (2 ^ N.succ (N.log2 (N.pos p)))%N.
    + apply N.log2_spec. reflexivity.
    + apply N.pow_le_mono_l. lia.
Qed.

Lemma str_N_digits (n : N) : Forall (fun c => is_digit c = true) (str_N n).
Proof. unfold str_N. apply Forall_rev, digits_le_digits. Qed.


(** [str_N] prints [n]: reading the digits back gives [n]. *)
Lemma str_N_value (n : N) : decimal_value (str_N n) = n.
Proof.
  unfold decimal_value, str_N.
  rewrite <- fold_left_rev_right, rev_involutive.
  apply digits_le_value, enough_fuel.
Qed.

Lemma str_N_length (w : nat) (n : N) :
  (n < 10 ^ N.of_nat (S w))%N -> (List.length (str_N n) <= S w)%nat.
Proof. unfold str_N; rewrite length_rev. apply digits_le_length. Qed.

Lemma decimal_value_zeros (k : nat) (s : pystr) :
  decimal_value (repeat (digit_chr 0) k ++ s) = decimal_value s.
Proof.
  unfold decimal_value. rewrite fold_left_app. f_equal.
  induction k as [|k IH]; [reflexivity | exact IH].
Qed.

(** A zero-padded field has its width and denotes its number. *)
Lemma zpad_numeral (w : nat) (n : N) :
  (n < 10 ^ N.of_nat (S w))%N -> numeral (S w) n (zpad (S w) n).
Proof.
  intros H; unfold numeral, zpad; cbv zeta.
  pose proof (str_N_length w n H) as Hl.
  split; [|split].
  - rewrite length_app, repeat_length. lia.
  - apply Forall_app; split.
    + apply Forall_forall. intros c Hc. apply repeat_spec in Hc. subst; reflexivity.
    + apply str_N_digits.
  - rewrite decimal_value_zeros. apply str_N_value.
Qed.

(** ** Rounding and the format [.1f] *)

(** [round_half_even] is a nearest integer: it is within one half of
    the quotient. *)
Lemma round_half_even_nearest (num den : Z) :
  0 < den -> 2 * Z.abs (round_half_even num den * den - num) <= den.
Proof.
  intros Hd; unfold round_half_even; cbv zeta.
  pose proof (Z.div_mod num den ltac:(lia)) as E.
  pose proof (Z.mod_pos_bound num den Hd) as B.
  revert E B. generalize (num / den) (num mod den). intros q r E B.
  assert (D0 : q * den - num = - r) by (rewrite E; ring).
  assert (D1 : (q + 1) * den - num = den - r) by (rewrite E; ring).
  destruct (2 * r ?= den) eqn:C.
  - apply Z.compare_eq in C.
    destruct (Z.even q); rewrite ?D0, ?D1; clear E D0 D1; lia.
  - change (2 * r < den) in C. rewrite D0; clear E D0 D1; lia.
  - apply Z.compare_gt_iff in C. rewrite D1; clear E D0 D1; lia.
Qed.

Lemma round_half_even_nonneg (num den : Z) :
  0 <= num -> 0 < den -> 0 <= round_half_even num den.
Proof.
  intros Hn Hd; unfold round_half_even; cbv zeta.
  pose proof (Z.div_pos num den Hn Hd).
  destruct (2 * (num mod den) ?= den); [destruct (Z.even (num / den))| |]; lia.
Qed.

Lemma tenths_nonneg (m : positive) (e : Z) : 0 <= tenths m e.
Proof.
  unfold tenths; destruct e as [|p|p].
  - lia.
  - pose proof (Z.pow_pos_nonneg 2 (Z.pos p)); lia.
  - apply round_half_even_nonneg; [lia|].
    apply Z.pow_pos_nonneg; lia.
Qed.





(** ** Conversion of an [int] to [float] *)









(** ** Running a computation *)

Lemma bind_returned {A B} (m : py A) (k : A -> py B) log a log' :
  m log = (Returned a, log') -> bind m k log = k a log'.
Proof. intros H; unfold bind; rewrite H; reflexivity. Qed.

Lemma bind_raised {A B} (m : py A) (k : A -> py B) log e log' :
  m log = (Raised e, log') -> bind m k log = (Raised e, log').
Proof. intros H; unfold bind; rewrite H; reflexivity. Qed.

Lemma local_ret {A} (P : A -> Prop) (a : A) : P a -> local_with P (ret a).
Proof. intros H log; left; exists a; split; [reflexivity | exact H]. Qed.

Lemma local_raise {A} (P : A -> Prop) (e : exn) : uncaught e -> local_with P (raise e).
Proof. intros H log; right; exists e; split; [reflexivity | exact H]. Qed.

Lemma local_bind {A B} (P : A -> Prop) (Q : B -> Prop) (m : py A) (k : A -> py B) :
  local_with P m -> (forall a, P a -> local_with Q (k a)) -> local_with Q (bind m k).
Proof.
  intros Hm Hk log. destruct (Hm log) as [(a & E & Pa) | (e & E & He)].
  - rewrite (bind_returned _ _ _ _ _ E). apply Hk, Pa.
  - right; exists e; split; [apply (bind_raised _ _ _ _ _ E) | exact He].
Qed.

Lemma getitem_local (v : pyval) (key : pystr) :
  local_with (fun _ => True) (getitem v key).
Proof.
  destruct v; try (apply local_raise; exact I).
  unfold getitem. destruct (dict_get d key).
  - apply local_ret; exact I.
  - apply local_raise; exact I.
Qed.

Lemma lower_method_local ul (v : pyval) :
  local_with (fun _ => True) (lower_method ul v).
Proof.
  destruct v; try (apply local_raise; exact I). apply local_ret; exact I.
Qed.

Lemma format_1f_local (v : pyval) : local_with (fun _ => True) (format_1f v).
Proof.
  destruct v as [ |b|n|x|s|l|d]; simpl; try (apply local_raise; exact I).
  - destruct (float_of_int _); [apply local_ret | apply local_raise]; exact I.
  - destruct (float_of_int _); [apply local_ret | apply local_raise]; exact I.
  - apply local_ret; exact I.
Qed.

Lemma getitem_field (key : string) (v x : pyval) :
  field key v = Some x -> getitem v (lit key) = ret x.
Proof.
  destruct v; simpl; try discriminate. intros ->; reflexivity.
Qed.

Lemma request_fails_upstream (r : reply) (what : pystr) :
  request_fails r what <-> upstream r = inl what.
Proof.
  unfold request_fails, upstream; split.
  - intros [-> | (resp & -> & [H | [H1 H2]])].
    + reflexivity.
    + rewrite H; reflexivity.
    + rewrite H1; exact H2.
  - destruct r as [w | resp].
    + intros E; injection E as ->; left; reflexivity.
    + intros E; right; exists resp; split; [reflexivity|].
      destruct (http_error resp) as [w|].
      * injection E as ->; left; reflexivity.
      * right; split; [reflexivity | exact E].
Qed.

(** ** The tools, case by case *)

Lemma py_not_configured (k : pystr) : k <> [] -> py_not (Some k) = false.
Proof. destruct k; [contradiction | reflexivity]. Qed.

Lemma py_not_false (v : option pystr) :
  py_not v = false -> exists k, v = Some k /\ k <> [].
Proof.
  destruct v as [[|c k]|]; try discriminate.
  intros _; exists (c :: k); split; [reflexivity | discriminate].
Qed.

Ltac local_steps :=
  repeat (eapply local_bind;
          [ first [ apply getitem_local | apply lower_method_local
                  | apply format_1f_local ]
          | intros ? _ ]).

Section ToolsetFacts.
Variable unicode_lower : pystr -> nat -> pystr.
Variable environ : pystr -> option pystr.
Variable network : http_request -> reply.
Variable clock : pystr -> datetime.

Local Abbreviation key := (environ (lit "WEATHERAPI_KEY")).

(** The three calls of the request layer, followed by anything. *)
Lemma request_then {A} (k : pyval -> py A) u p log :
  (response <- requests_get network u p ;;
   _ <- raise_for_status response ;;
   data <- json response ;;
   k data) log =
  match upstream (network {| url := u; params := p |}) with
  | inl what => (Raised (RequestException what), log ++ [{| url := u; params := p |}])
  | inr data => k data (log ++ [{| url := u; params := p |}])
  end.
Proof.
  unfold upstream, bind, requests_get.
  destruct (network _) as [w | r]; [reflexivity|].
  unfold raise_for_status, json. destruct (http_error r); [reflexivity|].
  unfold ret. destruct (decoded r); reflexivity.
Qed.

Lemma get_weather_unconfigured city log :
  py_not key = true ->
  get_weather unicode_lower environ network city log = (Returned not_configured, log).
Proof.
  intros H. unfold get_weather, os_getenv. rewrite H. reflexivity.
Qed.

Lemma get_forcast_unconfigured city days log :
  py_not key = true ->
  get_forcast environ network city days log = (Returned not_configured, log).
Proof.
  intros H. unfold get_forcast, os_getenv. rewrite H. reflexivity.
Qed.

Lemma get_weather_unavailable city k what log :
  key = Some k -> k <> [] ->
  upstream (network (current_request k city)) = inl what ->
  get_weather unicode_lower environ network city log =
  (Returned (unavailable city what), log ++ [current_request k city]).
Proof.
  intros Hk Hne Hup. unfold get_weather, os_getenv.
  rewrite Hk, (py_not_configured k Hne). cbv zeta.
  unfold try_except_RequestException. rewrite request_then.
  change {| url := _; params := _ |} with (current_request k city).
  rewrite Hup. reflexivity.
Qed.

Lemma get_forcast_unavailable city days k what log :
  key = Some k -> k <> [] ->
  upstream (network (forecast_request k city days)) = inl what ->
  get_forcast environ network city days log =
  (Returned (unavailable city what), log ++ [forecast_request k city days]).
Proof.
  intros Hk Hne Hup. unfold get_forcast, os_getenv.
  rewrite Hk, (py_not_configured k Hne). cbv zeta.
  unfold try_except_RequestException. rewrite request_then.
  change {| url := _; params := _ |} with (forecast_request k city days).
  rewrite Hup. reflexivity.
Qed.

Lemma get_forcast_decoded city days k data log :
  key = Some k -> k <> [] ->
  upstream (network (forecast_request k city days)) = inr data ->
  get_forcast environ network city days log =
  (Returned data, log ++ [forecast_request k city days]).
Proof.
  intros Hk Hne Hup. unfold get_forcast, os_getenv.
  rewrite Hk, (py_not_configured k Hne). cbv zeta.
  unfold try_except_RequestException. rewrite request_then.
  change {| url := _; params := _ |} with (forecast_request k city days).
  rewrite Hup. reflexivity.
Qed.

(** Once the body is decoded, [get_weather] returns a success
    envelope carrying [city], or lets an exception through. *)
Lemma get_weather_decoded city k data log :
  key = Some k -> k <> [] ->
  upstream (network (current_request k city)) = inr data ->
  (exists condition temperature_c temperature_f,
     get_weather unicode_lower environ network city log =
     (Returned (weather_success city condition temperature_c temperature_f),
      log ++ [current_request k city])) \/
  (exists e,
     get_weather unicode_lower environ network city log =
     (Raised e, log ++ [current_request k city]) /\ uncaught e).
Proof.
  intros Hk Hne Hup. unfold get_weather, os_getenv.
  rewrite Hk, (py_not_configured k Hne). cbv zeta.
  unfold try_except_RequestException. rewrite request_then.
  change {| url := _; params := _ |} with (current_request k city).
  rewrite Hup.
  lazymatch goal with
  | |- context [let (_, _) := ?t ?l in _] =>
      assert (L : local_with
                    (fun v => exists c tc tf, v = weather_success city c tc tf) t)
  end.
  { local_steps. apply local_ret. eexists _, _, _. reflexivity. }
  destruct (L (log ++ [current_request k city]))
    as [(v & E & (c & tc & tf & ->)) | (e & E & He)]; rewrite E.
  - left; exists c, tc, tf; reflexivity.
  - right; exists e; split; [|exact He].
    destruct e; try reflexivity. contradiction.
Qed.

(** The same with the fields of the body at hand. *)
Lemma get_weather_success city k data current temp_c temp_f condition text tc tf log :
  key = Some k -> k <> [] ->
  upstream (network (current_request k city)) = inr data ->
  field "current" data = Some current ->
  field "temp_c" current = Some temp_c ->
  field "temp_f" current = Some temp_f ->
  field "condition" current = Some condition ->
  field "text" condition = Some (PStr text) ->
  format_1f temp_c = ret tc ->
  format_1f temp_f = ret tf ->
  get_weather unicode_lower environ network city log =
  (Returned (weather_success city (py_lower unicode_lower text) tc tf),
   log ++ [current_request k city]).
Proof.
  intros Hk Hne Hup H1 H2 H3 H4 H5 H6 H7. unfold get_weather, os_getenv.
  rewrite Hk, (py_not_configured k Hne). cbv zeta.
  unfold try_except_RequestException. rewrite request_then.
  change {| url := _; params := _ |} with (current_request k city).
  rewrite Hup.
  rewrite (getitem_field _ _ _ H1). unfold bind at 1, ret at 1.
  rewrite (getitem_field _ _ _ H2). unfold bind at 1, ret at 1.
  unfold bind at 1, ret at 1.
  rewrite (getitem_field _ _ _ H3). unfold bind at 1, ret at 1.
  unfold bind at 1, ret at 1.
  rewrite (getitem_field _ _ _ H4). unfold bind at 1, ret at 1.
  rewrite (getitem_field _ _ _ H5). unfold bind at 1, ret at 1.
  unfold lower_method. unfold bind at 1, ret at 1.
  rewrite H6, H7. reflexivity.
Qed.
(** The two branches of [get_current_time]. *)
Lemma get_current_time_cases city log :
  (py_lower unicode_lower city = lit "new york" /\
   exists report,
     get_current_time unicode_lower clock city log =
       (Returned (PDict [(lit "status", PStr (lit "success"));
                         (lit "report", PStr report)]), log)) \/
  (py_lower unicode_lower city <> lit "new york" /\
   get_current_time unicode_lower clock city log = (Returned (unsupported city), log)).
Proof.
  unfold get_current_time.
  destruct (pystr_eqb (py_lower unicode_lower city) (lit "new york")) eqn:E.
  - left; split; [apply pystr_eqb_eq, E|]. eexists; reflexivity.
  - right; split; [apply pystr_eqb_neq, E | reflexivity].
Qed.

(** Whatever happens, [get_weather] and [get_forcast] issue at most one
    request. *)
Lemma at_most_one_request city days log :
  (exists o issued,
     get_weather unicode_lower environ network city log = (o, log ++ issued) /\
     (List.length issued <= 1)%nat) /\
  (exists o issued,
     get_forcast environ network city days log = (o, log ++ issued) /\
     (List.length issued <= 1)%nat).
Proof.
  split.
  - destruct (py_not key) eqn:Hnot.
    + exists (Returned not_configured), []. rewrite app_nil_r.
      split; [apply get_weather_unconfigured, Hnot | simpl; lia].
    + apply py_not_false in Hnot. destruct Hnot as (k & Hk & Hne).
      destruct (upstream (network (current_request k city))) as [what|data] eqn:Hup.
      * eexists _, [_]. split; [apply (get_weather_unavailable _ k what); eassumption|].
        simpl; lia.
      * destruct (get_weather_decoded city k data log Hk Hne Hup)
          as [(c & tc & tf & E) | (e & E & _)];
          eexists _, [_]; (split; [exact E | simpl; lia]).
  - destruct (py_not key) eqn:Hnot.
    + exists (Returned not_configured), []. rewrite app_nil_r.
      split; [apply get_forcast_unconfigured, Hnot | simpl; lia].
    + apply py_not_false in Hnot. destruct Hnot as (k & Hk & Hne).
      destruct (upstream (network (forecast_request k city days))) as [what|data] eqn:Hup.
      * eexists _, [_]. split; [apply (get_forcast_unavailable _ _ k what); eassumption|].
        simpl; lia.
      * eexists _, [_]. split; [apply (get_forcast_decoded _ _ k data); eassumption|].
        simpl; lia.
Qed.
End ToolsetFacts.

(** ** The numbers of the temperature fields *)

(** [float_21_2] is a binary64 value, within half a unit in the last
    place of 21.2. *)
Lemma float_21_2_nearest :
  float_21_2 = S754_finite false 5967269506265907 (-48) /\
  valid_binary prec emax float_21_2 = true /\
  2 * Z.abs (10 * 5967269506265907 - 212 * 2 ^ 48) <= 10.
Proof. vm_compute. repeat split; discriminate. Qed.


(** The two examples of the specification, and the rounding of ties. *)
Lemma format_1f_examples :
  format_1f (PInt 21) = ret (lit "21.0") /\
  format_1f (PFloat float_21_249) = ret (lit "21.2") /\
  format_1f (PFloat float_21_2) = ret (lit "21.2") /\
  format_1f (PFloat float_70_2) = ret (lit "70.2") /\
  format_1f (PFloat (float_of_ratio 25 100)) = ret (lit "0.2") /\
  format_1f (PFloat (float_of_ratio (-75) 100)) = ret (lit "-0.8").
Proof. repeat split; reflexivity. Qed.

(** ** The time stamp *)

Lemma strftime_format (d : datetime) :
  strftime d (lit "%Y-%m-%d %H:%M:%S %Z%z") =
  zpad 4 (year d) ++ lit "-" ++ zpad 2 (month d) ++ lit "-" ++ zpad 2 (day d) ++
  lit " " ++ zpad 2 (hour d) ++ lit ":" ++ zpad 2 (minute d) ++ lit ":" ++
  zpad 2 (second d) ++ lit " " ++ tzname d ++ format_offset (utcoffset d).
Proof.
  unfold lit. cbn -[zpad format_offset]. rewrite app_nil_r. reflexivity.
Qed.

(** An offset of whole minutes is printed as a sign and four digits. *)
Lemma format_offset_minutes (off : Z) :
  off mod 60 = 0 ->
  let a := Z.to_N (Z.abs off) in
  format_offset off =
  (if off <? 0 then lit "-" else lit "+") ++
  zpad 2 (a / 3600)%N ++ zpad 2 ((a mod 3600) / 60)%N.
Proof.
  intros H a. unfold format_offset. fold a.
  assert (E : (a mod 60 = 0)%N).
  { subst a. zify. Z.to_euclidean_division_equations. lia. }
  rewrite E. simpl. rewrite app_nil_r. reflexivity.
Qed.

Lemma offset_fields (off : Z) :
  Z.abs off < 86400 ->
  let a := Z.to_N (Z.abs off) in
  (a / 3600 < 100)%N /\ ((a mod 3600) / 60 < 100)%N.
Proof.
  intros H a. subst a. split; zify; Z.to_euclidean_division_equations; lia.
Qed.

Lemma zpad_2 (n : N) : (n < 100)%N -> numeral 2 n (zpad 2 n).
Proof. intros H. apply zpad_numeral. exact H. Qed.

Lemma zpad_4 (n : N) : (n < 10000)%N -> numeral 4 n (zpad 4 n).
Proof. intros H. apply zpad_numeral. exact H. Qed.

(** ** The claims *)

Section Claims.
Variable unicode_lower : pystr -> nat -> pystr.
Variable environ : pystr -> option pystr.
Variable network : http_request -> reply.
Variable clock : pystr -> datetime.

Local Abbreviation key := (environ (lit "WEATHERAPI_KEY")).
Local Abbreviation get_weather' := (get_weather unicode_lower environ network).
Local Abbreviation get_forcast' := (get_forcast environ network).
Local Abbreviation get_current_time' := (get_current_time unicode_lower clock).

(** C3. Without the key in the environment, [get_weather] and
    [get_forcast] return the error envelope, for every city, and the
    log of requests is as it was: no request is issued. *)
Theorem no_key_no_request (city : pystr) (days : Z) (log : list http_request) :
  key = None ->
  get_weather' city log = (Returned not_configured, log) /\
  get_forcast' city days log = (Returned not_configured, log) /\
  field "status" not_configured = Some (PStr (lit "error")).
Proof.
  intros H. split; [|split].
  - apply get_weather_unconfigured. rewrite H; reflexivity.
  - apply get_forcast_unconfigured. rewrite H; reflexivity.
  - reflexivity.
Qed.

(** C9. A key that is the empty string counts as no key: both tools
    return the envelope with status ["error"] and the message
    ["WeatherAPI key not configured"], and issue no request. *)
Theorem empty_key_as_absent (city : pystr) (days : Z) (log : list http_request) :
  key = Some [] ->
  get_weather' city log = (Returned not_configured, log) /\
  get_forcast' city days log = (Returned not_configured, log) /\
  not_configured =
    PDict [(lit "status", PStr (lit "error"));
           (lit "error_message", PStr (lit "WeatherAPI key not configured"))].
Proof.
  intros H. split; [|split].
  - apply get_weather_unconfigured. rewrite H; reflexivity.
  - apply get_forcast_unconfigured. rewrite H; reflexivity.
  - reflexivity.
Qed.


(** C6. With a key, when the forecast request succeeds [get_forcast]
    returns the decoded body itself: every field of the result is the
    field of the body, [status] included, so none is added. *)
Theorem get_forcast_returns_body (city k : pystr) (days : Z) (data : pyval)
    (log : list http_request) :
  key = Some k -> k <> [] ->
  upstream (network (forecast_request k city days)) = inr data ->
  exists result,
    get_forcast' city days log = (Returned result, log ++ [forecast_request k city days]) /\
    result = data /\
    field "status" result = field "status" data.
Proof.
  intros Hk Hne Hup. exists data.
  split; [apply get_forcast_decoded; assumption|]. split; reflexivity.
Qed.

(** C10. When [get_weather] returns a success envelope, its
    [city_name] is the argument [city] itself, whatever the upstream
    body holds. *)
Theorem city_name_is_argument (city : pystr) (log log' : list http_request) (v : pyval) :
  get_weather' city log = (Returned v, log') ->
  field "status" v = Some (PStr (lit "success")) ->
  field "city_name" v = Some (PStr city).
Proof.
  intros Hrun Hst.
  destruct (py_not key) eqn:Hnot.
  - rewrite (get_weather_unconfigured _ _ _ city log Hnot) in Hrun.
    injection Hrun as <- _. discriminate Hst.
  - apply py_not_false in Hnot. destruct Hnot as (k & Hk & Hne).
    destruct (upstream (network (current_request k city))) as [what|data] eqn:Hup.
    + rewrite (get_weather_unavailable _ _ _ city k what log Hk Hne Hup) in Hrun.
      injection Hrun as <- _. discriminate Hst.
    + destruct (get_weather_decoded unicode_lower _ _ city k data log Hk Hne Hup)
        as [(c & tc & tf & E) | (e & E & _)]; rewrite E in Hrun.
      * injection Hrun as <- _. reflexivity.
      * discriminate Hrun.
Qed.

(** C4. With a key and an upstream body in which [current.temp_c] is
    21.2, [current.temp_f] is 70.2 and [current.condition.text] is
    ["Sunny"], [get_weather("Paris")] returns exactly the envelope with
    status ["success"], condition ["sunny"], temperatures ["21.2"] and
    ["70.2"] and city name ["Paris"]. *)
Theorem get_weather_paris_sunny (k : pystr) (data current condition : pyval)
    (log : list http_request) :
  key = Some k -> k <> [] ->
  upstream (network (current_request k (lit "Paris"))) = inr data ->
  field "current" data = Some current ->
  field "temp_c" current = Some (PFloat float_21_2) ->
  field "temp_f" current = Some (PFloat float_70_2) ->
  field "condition" current = Some condition ->
  field "text" condition = Some (PStr (lit "Sunny")) ->
  get_weather' (lit "Paris") log =
    (Returned (PDict [(lit "status", PStr (lit "success"));
                      (lit "condition", PStr (lit "sunny"));
                      (lit "temperature_c", PStr (lit "21.2"));
                      (lit "temperature_f", PStr (lit "70.2"));
                      (lit "city_name", PStr (lit "Paris"))]),
     log ++ [current_request k (lit "Paris")]).
Proof.
  intros Hk Hne Hup H1 H2 H3 H4 H5.
  rewrite (get_weather_success unicode_lower _ _ _ k data current _ _ condition
             (lit "Sunny") (lit "21.2") (lit "70.2") log Hk Hne Hup H1 H2 H3 H4 H5);
    reflexivity.
Qed.

(** C2. [get_current_time] returns an envelope whose status is
    ["success"] exactly when the lower-cased city is ["new york"], which
    for an ASCII city means that it is ["new york"] letter for letter up
    to case; otherwise the status is ["error"] and the message contains
    the city as it was given. *)
Theorem get_current_time_supported_iff (city : pystr) (log : list http_request) :
  exists v,
    get_current_time' city log = (Returned v, log) /\
    (field "status" v = Some (PStr (lit "success")) <->
     py_lower unicode_lower city = lit "new york") /\
    (Forall (fun c => is_ascii c = true) city ->
     (field "status" v = Some (PStr (lit "success")) <->
      Forall2 same_letter city (lit "new york"))) /\
    (field "status" v = Some (PStr (lit "success")) \/
     (field "status" v = Some (PStr (lit "error")) /\
      exists message,
        field "error_message" v = Some (PStr message) /\ contains city message)).
Proof.
  assert (A : Forall (fun c => is_ascii c = true) city ->
              (py_lower unicode_lower city = lit "new york" <->
               Forall2 same_letter city (lit "new york"))).
  { intros H. rewrite (py_lower_ascii unicode_lower city H).
    apply map_ascii_lower_caseless. repeat constructor. }
  destruct (get_current_time_cases unicode_lower clock city log)
    as [(Hc & report & E) | (Hc & E)]; rewrite E.
  - eexists; split; [reflexivity|]. split; [|split].
    + split; [intros _; exact Hc | reflexivity].
    + intros H. split; [intros _; apply A; assumption | reflexivity].
    + left; reflexivity.
  - eexists; split; [reflexivity|]. split; [|split].
    + split; [discriminate | intros H; contradiction].
    + intros H. split; [discriminate|].
      intros F. apply A in F; [contradiction | exact H].
    + right; split; [reflexivity|].
      eexists; split; [reflexivity|]. apply contains_infix.
Qed.

(** C8. On the supported city [get_current_time] returns a success
    envelope whose [report] ends with the reading of the clock of
    America/New_York written as four digits of year, two of month and
    day, two each of hour, minute and second, the abbreviation of the
    zone and the signed offset in hours and minutes. *)
Theorem get_current_time_report (city : pystr) (log : list http_request) :
  py_lower unicode_lower city = lit "new york" ->
  wall_clock (clock (lit "America/New_York")) ->
  exists report,
    get_current_time' city log =
      (Returned (PDict [(lit "status", PStr (lit "success"));
                        (lit "report", PStr report)]), log) /\
    timestamp_report city (clock (lit "America/New_York")) report.
Proof.
  intros Hcity (Hy & Hm & Hd & Hh & Hmi & Hs & Hoff & Hday).
  destruct (offset_fields _ Hday) as [Hoh Hom].
  eexists; split.
  - unfold get_current_time. rewrite Hcity, pystr_eqb_refl. reflexivity.
  - unfold timestamp_report; cbv zeta.
    eexists (zpad 4 _), (zpad 2 _), (zpad 2 _), (zpad 2 _), (zpad 2 _), (zpad 2 _),
            (zpad 2 _), (zpad 2 _).
    split; [apply zpad_4; lia|].
    repeat (split; [apply zpad_2; lia|]).
    unfold datetime_now, ZoneInfo.
    rewrite strftime_format, (format_offset_minutes _ Hoff). reflexivity.
Qed.


End Claims.

(** ** The tools on the sample worlds *)

Lemma get_current_time_examples :
  field "status" (match fst (get_current_time no_unicode_cases clock_sample (lit "New York") [])
                  with Returned v => v | Raised _ => PNone end)
    = Some (PStr (lit "success")) /\
  get_current_time no_unicode_cases clock_sample (lit "NEW YORK") [] =
    (Returned (PDict [(lit "status", PStr (lit "success"));
                      (lit "report",
                       PStr (lit "The current time in NEW YORK is 2026-11-04 09:05:07 EST-0500"))]),
     []) /\
  get_current_time no_unicode_cases clock_sample (lit "Boston") [] =
    (Returned (PDict [(lit "status", PStr (lit "error"));
                      (lit "error_message",
                       PStr (lit "Sorry, I don't have timezone information for Boston."))]),
     []) /\
  get_current_time no_unicode_cases clock_sample (lit "New York ") [] =
    (Returned (PDict [(lit "status", PStr (lit "error"));
                      (lit "error_message",
                       PStr (lit "Sorry, I don't have timezone information for New York ."))]),
     []).
Proof. repeat split; reflexivity. Qed.

(** With the Unicode table, a city spelled with the Kelvin sign for its
    last letter is the supported city too. *)
Lemma get_current_time_kelvin :
  fst (get_current_time kelvin_cases clock_sample (lit "new yor" ++ [8490%N]) []) =
  Returned (PDict [(lit "status", PStr (lit "success"));
                   (lit "report",
                    PStr (lit "The current time in new yor" ++ [8490%N] ++
                          lit " is 2026-11-04 09:05:07 EST-0500"))]).
Proof. reflexivity. Qed.

(** An [int] beyond the range of [float] is not formatted. *)
Lemma format_1f_overflow : format_1f (PInt (10 ^ 309)) = raise OverflowError.
Proof. vm_compute. reflexivity. Qed.

Lemma get_current_time_supported_iff_witness :
  exists v,
    get_current_time no_unicode_cases clock_sample (lit "nEW yORK") [] = (Returned v, []) /\
    (field "status" v = Some (PStr (lit "success")) <->
     py_lower no_unicode_cases (lit "nEW yORK") = lit "new york") /\
    (Forall (fun c => is_ascii c = true) (lit "nEW yORK") ->
     (field "status" v = Some (PStr (lit "success")) <->
      Forall2 same_letter (lit "nEW yORK") (lit "new york"))) /\
    (field "status" v = Some (PStr (lit "success")) \/
     (field "status" v = Some (PStr (lit "error")) /\
      exists message,
        field "error_message" v = Some (PStr message) /\
        contains (lit "nEW yORK") message)).
Proof.
  apply (get_current_time_supported_iff no_unicode_cases clock_sample (lit "nEW yORK") []).
Defined.

Lemma no_key_no_request_witness :
  environ_without_key (lit "WEATHERAPI_KEY") = None /\
  get_weather no_unicode_cases environ_without_key network_down (lit "Paris") [] =
    (Returned not_configured, []) /\
  get_forcast environ_without_key network_down (lit "Paris") days_default [] =
    (Returned not_configured, []) /\
  field "status" not_configured = Some (PStr (lit "error")).
Proof.
  split; [reflexivity|].
  apply (no_key_no_request no_unicode_cases environ_without_key network_down
           (lit "Paris") days_default []).
  reflexivity.
Defined.

Lemma empty_key_as_absent_witness :
  environ_with_empty_key (lit "WEATHERAPI_KEY") = Some [] /\
  get_weather no_unicode_cases environ_with_empty_key (network_answers body_sunny)
    (lit "Paris") [] = (Returned not_configured, []) /\
  get_forcast environ_with_empty_key (network_answers body_sunny) (lit "Paris") days_default [] =
    (Returned not_configured, []) /\
  not_configured =
    PDict [(lit "status", PStr (lit "error"));
           (lit "error_message", PStr (lit "WeatherAPI key not configured"))].
Proof.
  split; [reflexivity|].
  apply (empty_key_as_absent no_unicode_cases environ_with_empty_key
           (network_answers body_sunny) (lit "Paris") days_default []).
  reflexivity.
Defined.


Lemma get_forcast_returns_body_witness :
  upstream (network_answers body_forecast (forecast_request (lit "secret") (lit "Paris") days_default)) =
    inr body_forecast /\
  exists result,
    get_forcast environ_with_key (network_answers body_forecast) (lit "Paris") days_default [] =
      (Returned result, [] ++ [forecast_request (lit "secret") (lit "Paris") days_default]) /\
    result = body_forecast /\
    field "status" result = field "status" body_forecast.
Proof.
  split; [reflexivity|].
  apply (get_forcast_returns_body environ_with_key (network_answers body_forecast)
           (lit "Paris") (lit "secret") days_default body_forecast []).
  - reflexivity.
  - discriminate.
  - reflexivity.
Defined.

Lemma city_name_is_argument_witness :
  get_weather no_unicode_cases environ_with_key (network_answers body_sunny)
    (lit "pARIS") [] =
    (Returned (weather_success (lit "pARIS") (lit "sunny") (lit "21.2") (lit "70.2")),
     [current_request (lit "secret") (lit "pARIS")]) /\
  field "city_name"
    (weather_success (lit "pARIS") (lit "sunny") (lit "21.2") (lit "70.2")) =
    Some (PStr (lit "pARIS")).
Proof.
  split; [reflexivity|].
  apply (city_name_is_argument no_unicode_cases environ_with_key
           (network_answers body_sunny) (lit "pARIS") []
           [current_request (lit "secret") (lit "pARIS")]).
  - reflexivity.
  - reflexivity.
Defined.

Lemma get_weather_paris_sunny_witness :
  environ_with_key (lit "WEATHERAPI_KEY") = Some (lit "secret") /\
  get_weather no_unicode_cases environ_with_key (network_answers body_sunny)
    (lit "Paris") [] =
    (Returned (PDict [(lit "status", PStr (lit "success"));
                      (lit "condition", PStr (lit "sunny"));
                      (lit "temperature_c", PStr (lit "21.2"));
                      (lit "temperature_f", PStr (lit "70.2"));
                      (lit "city_name", PStr (lit "Paris"))]),
     [] ++ [current_request (lit "secret") (lit "Paris")]).
Proof.
  split; [reflexivity|].
  eapply (get_weather_paris_sunny no_unicode_cases environ_with_key
            (network_answers body_sunny) (lit "secret") body_sunny).
  - reflexivity.
  - discriminate.
  - reflexivity.
  - reflexivity.
  - reflexivity.
  - reflexivity.
  - reflexivity.
  - reflexivity.
Defined.

Lemma get_current_time_report_witness :
  py_lower no_unicode_cases (lit "New York") = lit "new york" /\
  wall_clock (clock_sample (lit "America/New_York")) /\
  exists report,
    get_current_time no_unicode_cases clock_sample (lit "New York") [] =
      (Returned (PDict [(lit "status", PStr (lit "success"));
                        (lit "report", PStr report)]), []) /\
    timestamp_report (lit "New York") (clock_sample (lit "America/New_York")) report.
Proof.
  assert (W : wall_clock (clock_sample (lit "America/New_York"))).
  { unfold wall_clock; simpl. repeat split; lia. }
  split; [reflexivity|]. split; [exact W|].
  apply (get_current_time_report no_unicode_cases clock_sample (lit "New York") []).
  - reflexivity.
  - exact W.
Defined.




(** ** More facts about the runtime *)

Lemma digits2_pos_shift (p k : positive) :
  digits2_pos (Pos.iter xO p k) = (digits2_pos p + k)%positive.
Proof.
  induction k using Pos.peano_ind.
  - simpl. lia.
  - rewrite Pos.iter_succ. simpl. rewrite IHk. lia.
Qed.

Lemma digits2_pos_size (p : positive) : digits2_pos p = Pos.size p.
Proof. induction p; simpl; congruence. Qed.

Lemma digits2_pos_bound (p : positive) :
  Zpos p < 2 ^ 53 -> Zpos (digits2_pos p) <= 53.
Proof.
  intros H. rewrite digits2_pos_size.
  destruct (Z.le_gt_cases (Zpos (Pos.size p)) 53) as [L|G]; [exact L|exfalso].
  assert (H0 : 2 ^ 54 <= 2 ^ Zpos (Pos.size p)) by (apply Z.pow_le_mono_r; lia).
  assert (E : Zpos (2 ^ Pos.size p) = 2 ^ Zpos (Pos.size p))
    by (rewrite Pos2Z.inj_pow; reflexivity).
  assert (H1 : 2 ^ Zpos (Pos.size p) <= 2 * Zpos p)
    by (rewrite <- E; exact (Pos.size_le p)).
  change (2 ^ 54) with (2 * 2 ^ 53) in H0. clear E. lia.
Qed.

(** A mantissa of 53 bits with an exponent in range is not rounded. *)
Lemma binary_round_aux_exact (s : bool) (m : positive) (e : Z) :
  Zpos (digits2_pos m) = 53 -> -1074 <= e <= 971 ->
  binary_round_aux prec emax s (Zpos m) e loc_Exact = S754_finite s m e.
Proof.
  intros D B.
  assert (F : fexp prec emax (Zpos (digits2_pos m) + e) - e = 0).
  { rewrite D. unfold fexp, emin, prec, emax. lia. }
  unfold binary_round_aux, shr_fexp.
  cbn [Zdigits2 shr_record_of_loc]. rewrite F.
  cbn [shr shr_m loc_of_shr_record round_nearest_even].
  cbn [Zdigits2 shr_record_of_loc]. rewrite F. cbn [shr shr_m].
  destruct (e <=? emax - prec) eqn:L; [reflexivity|].
  apply Z.leb_gt in L. unfold emax, prec in L. lia.
Qed.

(** A positive integer below [2^53] converts exactly: the mantissa is
    the integer shifted to 53 bits, and ten times the value is ten
    times the integer. *)
Lemma binary_round_small (s : bool) (p : positive) :
  Zpos p < 2 ^ 53 ->
  exists m e,
    binary_round prec emax s p 0 = S754_finite s m e /\ tenths m e = 10 * Zpos p.
Proof.
  intros H. pose proof (digits2_pos_bound p H) as D.
  unfold binary_round.
  assert (F : fexp prec emax (Zpos (digits2_pos p) + 0) = Zpos (digits2_pos p) - 53).
  { unfold fexp, emin, prec, emax. lia. }
  rewrite F. unfold shl_align.
  destruct (Zpos (digits2_pos p) - 53 - 0) as [|k|k] eqn:K; try lia.
  - exists p, 0. split.
    + apply binary_round_aux_exact; lia.
    + unfold tenths. lia.
  - exists (Pos.iter xO p k), (Zpos (digits2_pos p) - 53). split.
    + apply binary_round_aux_exact; [rewrite digits2_pos_shift|]; lia.
    + assert (E : Zpos (digits2_pos p) - 53 = Zneg k) by lia.
      rewrite E. unfold tenths, round_half_even; cbv zeta.
      change (Pos.iter xO p k) with (shift_pos k p).
      rewrite shift_pos_correct. rewrite Z.pow_pos_fold.
      assert (P : 0 < 2 ^ Zpos k) by (apply Z.pow_pos_nonneg; lia).
      replace (10 * (2 ^ Zpos k * Zpos p)) with (10 * Zpos p * 2 ^ Zpos k) by ring.
      rewrite Z.div_mul, Z.mod_mul by lia.
      replace (2 * 0) with 0 by reflexivity.
      destruct (0 ?= 2 ^ Z.pos k) eqn:C.
      * apply Z.compare_eq in C. lia.
      * reflexivity.
      * apply Z.compare_gt_iff in C. lia.
Qed.

Lemma fixed1_whole (sign : bool) (a : Z) :
  0 <= a ->
  fixed1 sign (10 * a) = (if sign then lit "-" else []) ++ str_N (Z.to_N a) ++ lit ".0".
Proof.
  intros H. unfold fixed1.
  replace (10 * a) with (a * 10) by ring.
  rewrite Z.div_mul, Z.mod_mul by lia. reflexivity.
Qed.

Lemma fixed1_writes (sign : bool) (t : Z) :
  0 <= t -> writes_tenths (fixed1 sign t) sign t.
Proof.
  intros H.
  pose proof (Z.mod_pos_bound t 10 ltac:(lia)) as B.
  pose proof (Z.div_pos t 10 H ltac:(lia)) as Q.
  pose proof (Z.div_mod t 10 ltac:(lia)) as E.
  exists (str_N (Z.to_N (t / 10))), (digit_chr (Z.to_N (t mod 10))).
  split; [reflexivity|]. split; [apply str_N_digits|]. split.
  - apply is_digit_chr. lia.
  - rewrite str_N_value. unfold digit_chr.
    replace (48 + Z.to_N (t mod 10) - 48)%N with (Z.to_N (t mod 10)) by lia.
    rewrite N2Z.inj_add, N2Z.inj_mul, !Z2N.id by lia.
    change (Z.of_N 10) with 10. lia.
Qed.

Lemma ascii_lower_not_upper (c : N) : is_upper (ascii_lower c) = false.
Proof.
  unfold ascii_lower. destruct (is_upper c) eqn:U; [|exact U].
  unfold is_upper in *. apply andb_true_iff in U. destruct U as [U1 U2].
  apply N.leb_le in U1, U2. apply andb_false_iff. right. apply N.leb_gt. lia.
Qed.

Lemma ascii_lower_fixed (c : N) : is_upper c = false -> ascii_lower c = c.
Proof. unfold ascii_lower. intros ->; reflexivity. Qed.

Lemma map_ascii_lower_fixed (s : pystr) :
  Forall (fun c => is_upper c = false) s -> map ascii_lower s = s.
Proof.
  induction 1 as [|c s Hc _ IH]; [reflexivity|].
  simpl. rewrite (ascii_lower_fixed c Hc), IH. reflexivity.
Qed.

Lemma bind_ret_l {A B} (a : A) (k : A -> py B) : bind (ret a) k = k a.
Proof. reflexivity. Qed.

Lemma bind_raise_l {A B} (e : exn) (k : A -> py B) : bind (raise e) k = raise e.
Proof. reflexivity. Qed.

Ltac run := repeat (first [rewrite bind_ret_l | rewrite bind_raise_l]; cbv beta).
Ltac read H := rewrite (getitem_field _ _ _ H); run.

Lemma getitem_missing (key : string) (v : pyval) :
  is_object v -> field key v = None ->
  getitem v (lit key) = raise (KeyError (lit key)).
Proof. intros (d & ->); simpl. intros ->; reflexivity. Qed.

Lemma getitem_not_object (key : pystr) (v : pyval) :
  ~ is_object v -> getitem v key = raise TypeError.
Proof.
  intros H. destruct v; try reflexivity. exfalso; apply H; eexists; reflexivity.
Qed.

Lemma weather_envelope_local ul city text temp_c temp_f :
  local_with (fun v => exists c tc tf, v = weather_success city c tc tf)
             (weather_envelope ul city text temp_c temp_f).
Proof.
  unfold weather_envelope. local_steps. apply local_ret.
  eexists _, _, _. reflexivity.
Qed.

Lemma weather_envelope_formatted ul city text temp_c temp_f tc tf log :
  format_1f temp_c = ret tc -> format_1f temp_f = ret tf ->
  weather_envelope ul city (PStr text) temp_c temp_f log =
  (Returned (weather_success city (py_lower ul text) tc tf), log).
Proof.
  intros H1 H2. unfold weather_envelope, lower_method.
  unfold bind at 1, ret at 1. rewrite H1, H2. reflexivity.
Qed.

(** When the last steps return, the text was a string and the envelope
    holds its lower-cased form. *)
Lemma weather_envelope_returned ul city text temp_c temp_f log v log' :
  weather_envelope ul city (PStr text) temp_c temp_f log = (Returned v, log') ->
  exists tc tf,
    format_1f temp_c = ret tc /\ format_1f temp_f = ret tf /\
    v = weather_success city (py_lower ul text) tc tf /\ log' = log.
Proof.
  unfold weather_envelope, lower_method. unfold bind at 1, ret at 1.
  assert (Fc : (exists s, format_1f temp_c = ret s) \/ (exists e, format_1f temp_c = raise e)).
  { destruct temp_c as [ |b|n|x|s|l|d]; simpl;
      try destruct (float_of_int _); eauto. }
  assert (Ff : (exists s, format_1f temp_f = ret s) \/ (exists e, format_1f temp_f = raise e)).
  { destruct temp_f as [ |b|n|x|s|l|d]; simpl;
      try destruct (float_of_int _); eauto. }
  destruct Fc as [(tc & Ec) | (e & Ec)]; rewrite Ec; [|discriminate].
  destruct Ff as [(tf & Ef) | (e & Ef)]; rewrite Ef; [|discriminate].
  intros E. injection E as <- <-. exists tc, tf. repeat split; reflexivity.
Qed.

(** ** More cases of the tools *)

Section ToolsetMore.
Variable unicode_lower : pystr -> nat -> pystr.
Variable environ : pystr -> option pystr.
Variable network : http_request -> reply.
Variable clock : pystr -> datetime.

Local Abbreviation key := (environ (lit "WEATHERAPI_KEY")).
Local Abbreviation get_weather' := (get_weather unicode_lower environ network).
Local Abbreviation get_forcast' := (get_forcast environ network).
Local Abbreviation get_current_time' := (get_current_time unicode_lower clock).

(** [get_weather] up to the decoded body: what remains is the reading
    of the body, inside the [try]. *)
Lemma get_weather_body city k data log :
  key = Some k -> k <> [] ->
  upstream (network (current_request k city)) = inr data ->
  get_weather' city log =
  try_except_RequestException
    (current <- getitem data (lit "current") ;;
     temp_c <- getitem current (lit "temp_c") ;;
     current <- getitem data (lit "current") ;;
     temp_f <- getitem current (lit "temp_f") ;;
     current <- getitem data (lit "current") ;;
     condition <- getitem current (lit "condition") ;;
     condition <- getitem condition (lit "text") ;;
     weather_envelope unicode_lower city condition temp_c temp_f)
    (fun e => ret (unavailable city e))
    (log ++ [current_request k city]).
Proof.
  intros Hk Hne Hup. unfold get_weather, os_getenv.
  rewrite Hk, (py_not_configured k Hne). cbv zeta.
  unfold try_except_RequestException. rewrite request_then.
  change {| url := _; params := _ |} with (current_request k city).
  rewrite Hup. reflexivity.
Qed.

(** With the three values of the body at hand, [get_weather] is its
    last steps. *)
Lemma get_weather_fields city k data current temp_c temp_f condition text log :
  key = Some k -> k <> [] ->
  upstream (network (current_request k city)) = inr data ->
  field "current" data = Some current ->
  field "temp_c" current = Some temp_c ->
  field "temp_f" current = Some temp_f ->
  field "condition" current = Some condition ->
  field "text" condition = Some text ->
  get_weather' city log =
  weather_envelope unicode_lower city text temp_c temp_f (log ++ [current_request k city]).
Proof.
  intros Hk Hne Hup H1 H2 H3 H4 H5.
  rewrite (get_weather_body city k data log Hk Hne Hup).
  read H1. read H2. read H3. read H4. read H5.
  unfold try_except_RequestException.
  destruct (weather_envelope_local unicode_lower city text temp_c temp_f
              (log ++ [current_request k city]))
    as [(v & E & _) | (e & E & He)]; rewrite E; [reflexivity|].
  destruct e; try reflexivity. contradiction.
Qed.
End ToolsetMore.

(** ** Further properties of the tools *)

Section Further.
Variable unicode_lower : pystr -> nat -> pystr.
Variable environ : pystr -> option pystr.
Variable network : http_request -> reply.
Variable clock : pystr -> datetime.

Local Abbreviation key := (environ (lit "WEATHERAPI_KEY")).
Local Abbreviation get_weather' := (get_weather unicode_lower environ network).
Local Abbreviation get_forcast' := (get_forcast environ network).
Local Abbreviation get_current_time' := (get_current_time unicode_lower clock).

(** X1. With a key, when the forecast request fails (in [requests.get],
    in [raise_for_status] or in [json]) [get_forcast] returns an
    envelope with status ["error"] whose message contains the city and
    the description of the failure, after one request. *)
Theorem get_forcast_request_failure (city k what : pystr) (days : Z)
    (log : list http_request) :
  key = Some k -> k <> [] ->
  request_fails (network (forecast_request k city days)) what ->
  exists message,
    get_forcast' city days log =
      (Returned (PDict [(lit "status", PStr (lit "error"));
                        (lit "error_message", PStr message)]),
       log ++ [forecast_request k city days]) /\
    contains city message /\ contains what message.
Proof.
  intros Hk Hne Hup. apply request_fails_upstream in Hup.
  exists (lit "Weather information for '" ++ city ++ lit "' is not available: " ++ what).
  split; [apply get_forcast_unavailable; assumption|]. split.
  - apply contains_infix.
  - exists (lit "Weather information for '" ++ city ++ lit "' is not available: "), [].
    rewrite app_nil_r, <- !app_assoc. reflexivity.
Qed.


(** X3. With a key and a decoded body that is an object, [get_weather]
    raises the [KeyError] of the first field it does not find, in the
    order [current], [temp_c], [temp_f], [condition], [text]; the
    request has been issued. *)
Theorem get_weather_first_missing_field (city k : pystr) (data : pyval) (log : list http_request) :
  key = Some k -> k <> [] ->
  upstream (network (current_request k city)) = inr data ->
  is_object data ->
  let raises name :=
    get_weather' city log =
      (Raised (KeyError (lit name)), log ++ [current_request k city]) in
  (field "current" data = None -> raises "current"%string) /\
  (forall current, field "current" data = Some current -> is_object current ->
     (field "temp_c" current = None -> raises "temp_c"%string) /\
     (field "temp_c" current <> None -> field "temp_f" current = None ->
      raises "temp_f"%string) /\
     (field "temp_c" current <> None -> field "temp_f" current <> None ->
      field "condition" current = None -> raises "condition"%string) /\
     (forall condition,
        field "temp_c" current <> None -> field "temp_f" current <> None ->
        field "condition" current = Some condition -> is_object condition ->
        field "text" condition = None -> raises "text"%string)).
Proof.
  intros Hk Hne Hup Hd raises. subst raises. cbv beta.
  rewrite (get_weather_body unicode_lower _ _ city k data log Hk Hne Hup). split.
  - intros H. rewrite (getitem_missing _ _ Hd H). run. reflexivity.
  - intros current H1 Hc. read H1. split; [|split; [|split]].
    + intros H. rewrite (getitem_missing _ _ Hc H). run. reflexivity.
    + intros H2 H3. destruct (field "temp_c" current) as [tc|] eqn:E2; [|contradiction].
      read E2. rewrite (getitem_missing _ _ Hc H3). run. reflexivity.
    + intros H2 H3 H4.
      destruct (field "temp_c" current) as [tc|] eqn:E2; [|contradiction].
      destruct (field "temp_f" current) as [tf|] eqn:E3; [|contradiction].
      read E2. read E3. rewrite (getitem_missing _ _ Hc H4). run. reflexivity.
    + intros condition H2 H3 H4 Hcd H5.
      destruct (field "temp_c" current) as [tc|] eqn:E2; [|contradiction].
      destruct (field "temp_f" current) as [tf|] eqn:E3; [|contradiction].
      read E2. read E3. read H4.
      rewrite (getitem_missing _ _ Hcd H5). run. reflexivity.
Qed.

(** X4. With a key, [get_weather] raises [TypeError] when the decoded
    body is not an object, when its [current] is not an object, and
    when the [condition] of [current] is not an object. *)
Theorem get_weather_not_object (city k : pystr) (data : pyval) (log : list http_request) :
  key = Some k -> k <> [] ->
  upstream (network (current_request k city)) = inr data ->
  let raises_TypeError :=
    get_weather' city log = (Raised TypeError, log ++ [current_request k city]) in
  (~ is_object data -> raises_TypeError) /\
  (forall current, field "current" data = Some current -> ~ is_object current ->
     raises_TypeError) /\
  (forall current condition,
     field "current" data = Some current ->
     field "temp_c" current <> None -> field "temp_f" current <> None ->
     field "condition" current = Some condition -> ~ is_object condition ->
     raises_TypeError).
Proof.
  intros Hk Hne Hup raises. subst raises. cbv beta.
  rewrite (get_weather_body unicode_lower _ _ city k data log Hk Hne Hup).
  split; [|split].
  - intros H. rewrite (getitem_not_object _ _ H). run. reflexivity.
  - intros current H1 Hc. read H1.
    rewrite (getitem_not_object _ _ Hc). run. reflexivity.
  - intros current condition H1 H2 H3 H4 Hcd.
    destruct (field "temp_c" current) as [tc|] eqn:E2; [|contradiction].
    destruct (field "temp_f" current) as [tf|] eqn:E3; [|contradiction].
    read H1. read E2. read E3. read H4.
    rewrite (getitem_not_object _ _ Hcd). run. reflexivity.
Qed.

(** X5. With a key and the three fields in the body, when
    [condition.text] is not a string [get_weather] raises
    [AttributeError], whatever the temperatures are: the condition is
    lower-cased before a temperature is formatted. *)
Theorem get_weather_condition_not_text (city k : pystr)
    (data current temp_c temp_f condition text : pyval) (log : list http_request) :
  key = Some k -> k <> [] ->
  upstream (network (current_request k city)) = inr data ->
  field "current" data = Some current ->
  field "temp_c" current = Some temp_c ->
  field "temp_f" current = Some temp_f ->
  field "condition" current = Some condition ->
  field "text" condition = Some text ->
  ~ is_str text ->
  get_weather' city log = (Raised AttributeError, log ++ [current_request k city]).
Proof.
  intros Hk Hne Hup H1 H2 H3 H4 H5 Ht.
  rewrite (get_weather_fields unicode_lower _ _ city k data current temp_c temp_f
             condition text log Hk Hne Hup H1 H2 H3 H4 H5).
  destruct text; try reflexivity. exfalso; apply Ht; eexists; reflexivity.
Qed.

(** X6. With a key, the three fields in the body and a string for
    [condition.text]: a temperature that is a string makes
    [get_weather] raise [ValueError], and one that is [null], a list or
    an object makes it raise [TypeError]; [temp_c] is formatted first,
    and [temp_f] only when [temp_c] is a [float]. *)
Theorem get_weather_temperature_not_number (city k : pystr)
    (data current temp_c temp_f condition : pyval) (text : pystr)
    (log : list http_request) :
  key = Some k -> k <> [] ->
  upstream (network (current_request k city)) = inr data ->
  field "current" data = Some current ->
  field "temp_c" current = Some temp_c ->
  field "temp_f" current = Some temp_f ->
  field "condition" current = Some condition ->
  field "text" condition = Some (PStr text) ->
  let raises e :=
    get_weather' city log = (Raised e, log ++ [current_request k city]) in
  (is_str temp_c -> raises ValueError) /\
  (temp_c = PNone \/ (exists l, temp_c = PList l) \/ is_object temp_c ->
   raises TypeError) /\
  (forall x, temp_c = PFloat x -> is_str temp_f -> raises ValueError) /\
  (forall x, temp_c = PFloat x ->
     temp_f = PNone \/ (exists l, temp_f = PList l) \/ is_object temp_f ->
     raises TypeError).
Proof.
  intros Hk Hne Hup H1 H2 H3 H4 H5 raises. subst raises. cbv beta.
  rewrite (get_weather_fields unicode_lower _ _ city k data current temp_c temp_f
             condition (PStr text) log Hk Hne Hup H1 H2 H3 H4 H5).
  split; [|split; [|split]].
  - intros (s & ->). reflexivity.
  - intros [-> | [(l & ->) | (d & ->)]]; reflexivity.
  - intros x -> (s & ->). reflexivity.
  - intros x -> [-> | [(l & ->) | (d & ->)]]; reflexivity.
Qed.

(** X8. Whatever [get_weather] returns is a dictionary of strings, as
    its annotation says, and [status] tells its fields: with ["error"]
    there is an [error_message] and none of the weather fields, with
    ["success"] there are the four weather fields and no
    [error_message]. *)
Theorem get_weather_returns_strings (city : pystr) (log log' : list http_request)
    (v : pyval) :
  get_weather' city log = (Returned v, log') ->
  str_dict v /\
  ((field "status" v = Some (PStr (lit "error")) /\
    (exists message, field "error_message" v = Some (PStr message)) /\
    field "condition" v = None /\ field "temperature_c" v = None /\
    field "temperature_f" v = None /\ field "city_name" v = None) \/
   (field "status" v = Some (PStr (lit "success")) /\
    field "error_message" v = None /\
    (exists c, field "condition" v = Some (PStr c)) /\
    (exists tc, field "temperature_c" v = Some (PStr tc)) /\
    (exists tf, field "temperature_f" v = Some (PStr tf)) /\
    field "city_name" v = Some (PStr city))).
Proof.
  intros Hrun.
  assert (S : forall s, is_str (PStr s)) by (intros s; exists s; reflexivity).
  destruct (py_not key) eqn:Hnot.
  - rewrite (get_weather_unconfigured _ _ _ city log Hnot) in Hrun.
    injection Hrun as <- _. split.
    + eexists; split; [reflexivity|]. repeat constructor; apply S.
    + left. repeat split; try reflexivity. eexists; reflexivity.
  - apply py_not_false in Hnot. destruct Hnot as (k & Hk & Hne).
    destruct (upstream (network (current_request k city))) as [what|data] eqn:Hup.
    + rewrite (get_weather_unavailable _ _ _ city k what log Hk Hne Hup) in Hrun.
      injection Hrun as <- _. split.
      * eexists; split; [reflexivity|]. repeat constructor; apply S.
      * left. repeat split; try reflexivity. eexists; reflexivity.
    + destruct (get_weather_decoded unicode_lower _ _ city k data log Hk Hne Hup)
        as [(c & tc & tf & E) | (e & E & _)]; rewrite E in Hrun; [|discriminate].
      injection Hrun as <- _. split.
      * eexists; split; [reflexivity|]. repeat constructor; apply S.
      * right. repeat split; try reflexivity; eexists; reflexivity.
Qed.

(** X9. [get_current_time] always returns a dictionary of strings that
    has, beside [status], a [report] and no [error_message] when the
    status is ["success"], and an [error_message] and no [report] when
    it is ["error"]; it issues no request. *)
Theorem get_current_time_returns_strings (city : pystr) (log : list http_request) :
  exists v,
    get_current_time' city log = (Returned v, log) /\
    str_dict v /\
    ((field "status" v = Some (PStr (lit "success")) /\
      (exists report, field "report" v = Some (PStr report)) /\
      field "error_message" v = None) \/
     (field "status" v = Some (PStr (lit "error")) /\
      (exists message, field "error_message" v = Some (PStr message)) /\
      field "report" v = None)).
Proof.
  assert (S : forall s, is_str (PStr s)) by (intros s; exists s; reflexivity).
  destruct (get_current_time_cases unicode_lower clock city log)
    as [(_ & report & E) | (_ & E)]; rewrite E; eexists; (split; [reflexivity|]); split.
  - eexists; split; [reflexivity|]. repeat constructor; apply S.
  - left. repeat split; try reflexivity. eexists; reflexivity.
  - eexists; split; [reflexivity|]. repeat constructor; apply S.
  - right. repeat split; try reflexivity. eexists; reflexivity.
Qed.

(** X10. An ASCII city that is not eight characters long is not
    supported: [get_current_time] neither trims the city nor looks for
    the name inside it. *)
Theorem get_current_time_length (city : pystr) (log : list http_request) :
  Forall (fun c => is_ascii c = true) city ->
  List.length city <> 8%nat ->
  get_current_time' city log = (Returned (unsupported city), log).
Proof.
  intros Ha Hl.
  destruct (get_current_time_cases unicode_lower clock city log)
    as [(Hc & _) | (_ & E)]; [exfalso | exact E].
  rewrite (py_lower_ascii unicode_lower city Ha) in Hc.
  apply (f_equal (@List.length N)) in Hc. rewrite length_map in Hc.
  apply Hl. exact Hc.
Qed.

(** X13. With a key, the three fields in the body, a string for
    [condition.text] and [float]s for the two temperatures,
    [get_weather] always returns a success envelope; a temperature that
    is not finite is written ["inf"], ["-inf"] or ["nan"] in it. *)
Theorem get_weather_float_temperatures (city k : pystr)
    (data current condition : pyval) (text : pystr) (x y : pyfloat)
    (log : list http_request) :
  key = Some k -> k <> [] ->
  upstream (network (current_request k city)) = inr data ->
  field "current" data = Some current ->
  field "temp_c" current = Some (PFloat x) ->
  field "temp_f" current = Some (PFloat y) ->
  field "condition" current = Some condition ->
  field "text" condition = Some (PStr text) ->
  exists tc tf,
    get_weather' city log =
      (Returned (weather_success city (py_lower unicode_lower text) tc tf),
       log ++ [current_request k city]) /\
    (is_finite x = false -> tc = lit "inf" \/ tc = lit "-inf" \/ tc = lit "nan") /\
    (is_finite y = false -> tf = lit "inf" \/ tf = lit "-inf" \/ tf = lit "nan").
Proof.
  intros Hk Hne Hup H1 H2 H3 H4 H5.
  exists (float_format_1f x), (float_format_1f y). split; [|split].
  - rewrite (get_weather_fields unicode_lower _ _ city k data current _ _
               condition (PStr text) log Hk Hne Hup H1 H2 H3 H4 H5).
    apply weather_envelope_formatted; reflexivity.
  - destruct x as [s|[|]| |s m e]; try discriminate; simpl; auto.
  - destruct y as [s|[|]| |s m e]; try discriminate; simpl; auto.
Qed.

(** X14. When [get_weather] returns for a body whose [condition.text]
    is an ASCII string, the [condition] of the envelope is that string
    with each capital letter replaced by its small letter: it has the
    same length and no capital, and a text without capitals is
    unchanged. *)
Theorem get_weather_condition_lower (city k : pystr)
    (data current temp_c temp_f condition : pyval) (text : pystr)
    (log log' : list http_request) (v : pyval) :
  key = Some k -> k <> [] ->
  upstream (network (current_request k city)) = inr data ->
  field "current" data = Some current ->
  field "temp_c" current = Some temp_c ->
  field "temp_f" current = Some temp_f ->
  field "condition" current = Some condition ->
  field "text" condition = Some (PStr text) ->
  Forall (fun c => is_ascii c = true) text ->
  get_weather' city log = (Returned v, log') ->
  exists c,
    field "condition" v = Some (PStr c) /\
    c = map ascii_lower text /\
    List.length c = List.length text /\
    Forall (fun x => is_upper x = false) c /\
    (Forall (fun x => is_upper x = false) text -> c = text).
Proof.
  intros Hk Hne Hup H1 H2 H3 H4 H5 Ha Hrun.
  rewrite (get_weather_fields unicode_lower _ _ city k data current temp_c temp_f
             condition (PStr text) log Hk Hne Hup H1 H2 H3 H4 H5) in Hrun.
  apply weather_envelope_returned in Hrun.
  destruct Hrun as (tc & tf & _ & _ & -> & _).
  exists (map ascii_lower text).
  split; [|split; [|split; [|split]]].
  - cbn [field weather_success]. rewrite (py_lower_ascii unicode_lower text Ha).
    reflexivity.
  - reflexivity.
  - apply length_map.
  - apply Forall_map. apply Forall_forall. intros c _. apply ascii_lower_not_upper.
  - apply map_ascii_lower_fixed.
Qed.
End Further.

(** X7. [get_weather] reads three values of the body and nothing else:
    two upstream bodies that hold the same [current.temp_c],
    [current.temp_f] and [current.condition.text] give the same
    outcome. *)
Theorem get_weather_reads_three_fields (unicode_lower : pystr -> nat -> pystr)
    (environ : pystr -> option pystr) (network1 network2 : http_request -> reply)
    (city k : pystr) (data1 current1 condition1 data2 current2 condition2 : pyval)
    (temp_c temp_f text : pyval) (log : list http_request) :
  environ (lit "WEATHERAPI_KEY") = Some k -> k <> [] ->
  upstream (network1 (current_request k city)) = inr data1 ->
  upstream (network2 (current_request k city)) = inr data2 ->
  field "current" data1 = Some current1 ->
  field "current" data2 = Some current2 ->
  field "temp_c" current1 = Some temp_c ->
  field "temp_c" current2 = Some temp_c ->
  field "temp_f" current1 = Some temp_f ->
  field "temp_f" current2 = Some temp_f ->
  field "condition" current1 = Some condition1 ->
  field "condition" current2 = Some condition2 ->
  field "text" condition1 = Some text ->
  field "text" condition2 = Some text ->
  get_weather unicode_lower environ network1 city log =
  get_weather unicode_lower environ network2 city log.
Proof.
  intros Hk Hne U1 U2 A1 A2 B1 B2 C1 C2 D1 D2 E1 E2.
  rewrite (get_weather_fields unicode_lower environ network1 city k data1 current1
             temp_c temp_f condition1 text log Hk Hne U1 A1 B1 C1 D1 E1).
  rewrite (get_weather_fields unicode_lower environ network2 city k data2 current2
             temp_c temp_f condition2 text log Hk Hne U2 A2 B2 C2 D2 E2).
  reflexivity.
Qed.

(** X11. A finite [float] is written as the number of tenths nearest to
    it: the digits of [format(x, ".1f")] read as [t] tenths, where [t]
    is within one half of ten times the magnitude [m * 2^e] of [x],
    and the sign is written for a negative [x] even when [t] is zero. *)
Theorem float_format_1f_nearest (s : bool) (m : positive) (e : Z) :
  exists text t,
    format_1f (PFloat (S754_finite s m e)) = ret text /\
    writes_tenths text s t /\
    0 <= t /\
    (0 <= e -> t = 10 * Zpos m * 2 ^ e) /\
    (e < 0 -> 2 * Z.abs (t * 2 ^ (- e) - 10 * Zpos m) <= 2 ^ (- e)).
Proof.
  exists (fixed1 s (tenths m e)), (tenths m e).
  split; [reflexivity|]. split; [apply fixed1_writes, tenths_nonneg|].
  split; [apply tenths_nonneg|]. split.
  - intros He. destruct e as [|p|p]; try reflexivity. lia.
  - intros He. destruct e as [|p|p]; try lia.
    cbn [tenths Z.opp]. apply round_half_even_nearest.
    apply Z.pow_pos_nonneg; lia.
Qed.

(** X12. An [int] of magnitude below [2^53] is written as itself
    followed by [.0]: its conversion to [float] is exact. *)
Theorem format_1f_int (n : Z) :
  Z.abs n < 2 ^ 53 ->
  format_1f (PInt n) =
  ret ((if n <? 0 then lit "-" else []) ++ str_N (Z.to_N (Z.abs n)) ++ lit ".0").
Proof.
  intros H. unfold format_1f, float_of_int.
  destruct n as [|p|p]; cbn [binary_normalize].
  - reflexivity.
  - destruct (binary_round_small false p H) as (m & e & -> & T).
    cbn [float_format_1f]. rewrite T. rewrite fixed1_whole by lia. reflexivity.
  - destruct (binary_round_small true p H) as (m & e & -> & T).
    cbn [float_format_1f]. rewrite T. rewrite fixed1_whole by lia. reflexivity.
Qed.

(** ** The further properties on the sample worlds *)

Lemma get_forcast_request_failure_witness :
  request_fails (network_down (forecast_request (lit "secret") (lit "Oslo") 3))
    (lit "Connection timed out") /\
  exists message,
    get_forcast environ_with_key network_down (lit "Oslo") 3 [] =
      (Returned (PDict [(lit "status", PStr (lit "error"));
                        (lit "error_message", PStr message)]),
       [] ++ [forecast_request (lit "secret") (lit "Oslo") 3]) /\
    contains (lit "Oslo") message /\ contains (lit "Connection timed out") message.
Proof.
  assert (F : request_fails (network_down (forecast_request (lit "secret") (lit "Oslo") 3))
                (lit "Connection timed out")) by (left; reflexivity).
  split; [exact F|].
  apply (get_forcast_request_failure environ_with_key network_down
           (lit "Oslo") (lit "secret") (lit "Connection timed out") 3 []).
  - reflexivity.
  - discriminate.
  - exact F.
Defined.


Lemma get_weather_first_missing_field_witness :
  get_weather no_unicode_cases environ_with_key (network_answers body_no_fahrenheit)
    (lit "Paris") [] =
  (Raised (KeyError (lit "temp_f")), [] ++ [current_request (lit "secret") (lit "Paris")]).
Proof.
  assert (O : forall d, is_object (PDict d)) by (intros d; exists d; reflexivity).
  refine (proj1 (proj2 (proj2 (get_weather_first_missing_field no_unicode_cases environ_with_key
            (network_answers body_no_fahrenheit) (lit "Paris") (lit "secret")
            body_no_fahrenheit [] _ _ _ _) _ _ _)) _ _).
  - reflexivity.
  - discriminate.
  - reflexivity.
  - apply O.
  - reflexivity.
  - apply O.
  - discriminate.
  - reflexivity.
Defined.

Lemma get_weather_not_object_witness :
  get_weather no_unicode_cases environ_with_key (network_answers (PList []))
    (lit "Paris") [] =
  (Raised TypeError, [] ++ [current_request (lit "secret") (lit "Paris")]).
Proof.
  refine (proj1 (get_weather_not_object no_unicode_cases environ_with_key
            (network_answers (PList [])) (lit "Paris") (lit "secret")
            (PList []) [] _ _ _) _).
  - reflexivity.
  - discriminate.
  - reflexivity.
  - intros (d & E). discriminate E.
Defined.

Lemma get_weather_condition_not_text_witness :
  get_weather no_unicode_cases environ_with_key
    (network_answers (body_fields (PStr (lit "warm")) PNone PNone))
    (lit "Paris") [] =
  (Raised AttributeError, [] ++ [current_request (lit "secret") (lit "Paris")]).
Proof.
  eapply (get_weather_condition_not_text no_unicode_cases environ_with_key
            (network_answers (body_fields (PStr (lit "warm")) PNone PNone))
            (lit "Paris") (lit "secret")).
  - reflexivity.
  - discriminate.
  - reflexivity.
  - reflexivity.
  - reflexivity.
  - reflexivity.
  - reflexivity.
  - reflexivity.
  - intros (s & E). discriminate E.
Defined.

Lemma get_weather_temperature_not_number_witness :
  get_weather no_unicode_cases environ_with_key
    (network_answers (body_fields (PStr (lit "21.2")) (PFloat float_70_2)
                                  (PStr (lit "Sunny"))))
    (lit "Paris") [] =
  (Raised ValueError, [] ++ [current_request (lit "secret") (lit "Paris")]).
Proof.
  refine (proj1 (get_weather_temperature_not_number no_unicode_cases environ_with_key
            (network_answers (body_fields (PStr (lit "21.2")) (PFloat float_70_2)
                                          (PStr (lit "Sunny"))))
            (lit "Paris") (lit "secret") _ _ (PStr (lit "21.2")) (PFloat float_70_2) _
            (lit "Sunny") [] _ _ _ _ _ _ _ _) _).
  - reflexivity.
  - discriminate.
  - reflexivity.
  - reflexivity.
  - reflexivity.
  - reflexivity.
  - reflexivity.
  - reflexivity.
  - exists (lit "21.2"). reflexivity.
Defined.

Lemma get_weather_reads_three_fields_witness :
  get_weather no_unicode_cases environ_with_key (network_answers body_sunny)
    (lit "Paris") [] =
  get_weather no_unicode_cases environ_with_key (network_answers body_sunny_verbose)
    (lit "Paris") [].
Proof.
  eapply (get_weather_reads_three_fields no_unicode_cases environ_with_key
            (network_answers body_sunny) (network_answers body_sunny_verbose)
            (lit "Paris") (lit "secret")).
  - reflexivity.
  - discriminate.
  - reflexivity.
  - reflexivity.
  - reflexivity.
  - reflexivity.
  - reflexivity.
  - reflexivity.
  - reflexivity.
  - reflexivity.
  - reflexivity.
  - reflexivity.
  - reflexivity.
  - reflexivity.
Defined.

Lemma get_weather_returns_strings_witness :
  str_dict (unavailable (lit "Paris") (lit "Connection timed out")).
Proof.
  refine (proj1 (get_weather_returns_strings no_unicode_cases environ_with_key
            network_down (lit "Paris") []
            [current_request (lit "secret") (lit "Paris")]
            (unavailable (lit "Paris") (lit "Connection timed out")) _)).
  reflexivity.
Defined.

Lemma get_current_time_length_witness :
  get_current_time no_unicode_cases clock_sample (lit " new york") [] =
  (Returned (unsupported (lit " new york")), []).
Proof.
  apply (get_current_time_length no_unicode_cases clock_sample (lit " new york") []).
  - repeat constructor.
  - discriminate.
Defined.

Lemma format_1f_int_witness :
  format_1f (PInt (-7)) = ret (lit "-7.0").
Proof.
  apply (format_1f_int (-7)). reflexivity.
Defined.

Lemma get_weather_float_temperatures_witness :
  exists tc tf,
    get_weather no_unicode_cases environ_with_key
      (network_answers (body_fields (PFloat S754_nan) (PFloat (S754_infinity true))
                                    (PStr (lit "Fog"))))
      (lit "Paris") [] =
      (Returned (weather_success (lit "Paris") (py_lower no_unicode_cases (lit "Fog")) tc tf),
       [] ++ [current_request (lit "secret") (lit "Paris")]) /\
    (is_finite S754_nan = false ->
     tc = lit "inf" \/ tc = lit "-inf" \/ tc = lit "nan") /\
    (is_finite (S754_infinity true) = false ->
     tf = lit "inf" \/ tf = lit "-inf" \/ tf = lit "nan").
Proof.
  eapply (get_weather_float_temperatures no_unicode_cases environ_with_key
            (network_answers (body_fields (PFloat S754_nan) (PFloat (S754_infinity true))
                                          (PStr (lit "Fog"))))
            (lit "Paris") (lit "secret")).
  - reflexivity.
  - discriminate.
  - reflexivity.
  - reflexivity.
  - reflexivity.
  - reflexivity.
  - reflexivity.
  - reflexivity.
Defined.

Lemma get_weather_condition_lower_witness :
  exists c,
    field "condition"
      (weather_success (lit "Paris") (lit "partly cloudy") (lit "21.2") (lit "70.2")) =
      Some (PStr c) /\
    c = map ascii_lower (lit "Partly Cloudy") /\
    List.length c = List.length (lit "Partly Cloudy") /\
    Forall (fun x => is_upper x = false) c /\
    (Forall (fun x => is_upper x = false) (lit "Partly Cloudy") ->
     c = lit "Partly Cloudy").
Proof.
  eapply (get_weather_condition_lower no_unicode_cases environ_with_key
            (network_answers (body_current (PFloat float_21_2) (PFloat float_70_2)
                                           "Partly Cloudy"))
            (lit "Paris") (lit "secret") _ _ _ _ _ (lit "Partly Cloudy") []
            [current_request (lit "secret") (lit "Paris")]
            (weather_success (lit "Paris") (lit "partly cloudy") (lit "21.2") (lit "70.2"))).
  - reflexivity.
  - discriminate.
  - reflexivity.
  - reflexivity.
  - reflexivity.
  - reflexivity.
  - reflexivity.
  - reflexivity.
  - repeat constructor.
  - reflexivity.
Defined.
